(** * The document workflow engine of [src/App.js]

    A shallow embedding of the [ApiService] class and of the state handlers of
    the [App] component: [handleFileUpload], [handleAIEdit],
    [downloadAsFormat] and [resetDocument].

    React state is an explicit record; the handlers are written in a small
    monad that threads that record, an event log and thrown JavaScript
    errors.  The outside world (the backend behind [fetch], the clock, the
    DOM) is a record of answers [Env] that every handler takes as an
    argument. *)

From Stdlib Require Import String Ascii List Bool Arith Lia DecimalString.
Import ListNotations.
Local Open Scope string_scope.
Local Open Scope list_scope.

(* ================================================================== *)
(** ** JavaScript strings

    A string is a sequence of code units below 256. *)

Module JsString.

(** Truthiness of a string: only the empty string is falsy. *)
Definition truthy (s : string) : bool :=
  match s with
  | EmptyString => false
  | String _ _ => true
  end.

(** [a || d] where [a] is a string. *)
Definition or_else (a d : string) : string :=
  if truthy a then a else d.

(** [a || d] where [a] is a string-valued property that may be
    [undefined] or [null]. *)
Definition opt_or (a : option string) (d : string) : string :=
  match a with
  | Some s => or_else s d
  | None => d
  end.

(** [s.includes(sub)]. *)
Fixpoint includes (s sub : string) : bool :=
  if String.prefix sub s then true
  else match s with
       | EmptyString => false
       | String _ rest => includes rest sub
       end.

(** White space and line terminators, as [String.prototype.trim] strips
    them: TAB, LF, VT, FF, CR, SPACE and NBSP. *)
Definition is_space (c : ascii) : bool :=
  let n := nat_of_ascii c in
  (((9 <=? n) && (n <=? 13)) || (n =? 32) || (n =? 160))%nat.

Fixpoint trimStart (s : string) : string :=
  match s with
  | EmptyString => EmptyString
  | String c rest => if is_space c then trimStart rest else s
  end.

(** Strips trailing white space: a character is dropped when it is a
    space and everything after it has been dropped. *)
Fixpoint trimEnd (s : string) : string :=
  match s with
  | EmptyString => EmptyString
  | String c rest =>
      match trimEnd rest with
      | EmptyString => if is_space c then EmptyString else String c EmptyString
      | t => String c t
      end
  end.

(** [s.trim()]. *)
Definition trim (s : string) : string := trimEnd (trimStart s).

(** [s.split('.')[0]]: the characters before the first dot. *)
Fixpoint before_dot (s : string) : string :=
  match s with
  | EmptyString => EmptyString
  | String c rest =>
      if Ascii.eqb c "."%char then EmptyString else String c (before_dot rest)
  end.

Definition upper_char (c : ascii) : ascii :=
  let n := nat_of_ascii c in
  if ((97 <=? n) && (n <=? 122))%nat then ascii_of_nat (n - 32) else c.

(** [s.toUpperCase()] on the ASCII names of the export formats. *)
Fixpoint toUpperCase (s : string) : string :=
  match s with
  | EmptyString => EmptyString
  | String c rest => String (upper_char c) (toUpperCase rest)
  end.

(** A number inside a template literal. *)
Definition of_nat (n : nat) : string :=
  NilZero.string_of_uint (Nat.to_uint n).

End JsString.

(* ================================================================== *)
(** ** Data model *)

(** A thrown value: an [Error] object with its [name] and [message]. *)
Record JsError := mkJsError { name : string; message : string }.

(** [new Error(msg)]. *)
Definition new_Error (msg : string) : JsError :=
  {| name := "Error"; message := msg |}.

(** A [File] picked by the user. *)
Record File := mkFile { file_name : string; file_size : nat }.

(** A [Blob]; only its size is looked at. *)
Record Blob := mkBlob { blob_size : nat }.

Record Metadata := mkMetadata {
  fileSize : option nat;
  wordCount : option nat
}.

(** The [document] object of an upload response.  A property that is
    missing or [null] is [None]. *)
Record Document := mkDocument {
  doc_id : option string;
  originalName : option string;
  doc_type : option string;
  doc_language : option string;
  doc_html : option string;
  doc_metadata : option Metadata
}.

(** A parsed JSON body, with the properties the client reads, typed as the
    backend contract gives them: [r_success] is the truthiness of
    [success]; the other properties are [None] when missing or [null]. *)
Record JsonBody := mkJsonBody {
  r_success : bool;
  r_document : option Document;
  r_modifiedHTML : option string;
  r_explanation : option string;
  r_error : option string
}.

(** A [Response].  [resp_json] and [resp_blob] are what the promises of
    [response.json()] and [response.blob()] settle to; a JSON body that is
    the literal [null] is [inr None]. *)
Record Response := mkResponse {
  status : nat;
  statusText : string;
  resp_json : JsError + option JsonBody;
  resp_blob : JsError + Blob
}.

(** [response.ok]: the status is in the range 200-299. *)
Definition ok (r : Response) : bool :=
  ((200 <=? status r) && (status r <=? 299))%nat.

Inductive RequestBody :=
| FormData (file : File)
| EditJson (documentId : option string) (instruction html language : string)
| ConvertJson (html format : string) (filename : option string).

Record Request := mkRequest { url : string; body : RequestBody }.

(** What the promise returned by [fetch] settles to. *)
Inductive FetchOutcome :=
| Rejected (e : JsError)
| Resolved (r : Response).

Inductive Step := StepUpload | StepPreview | StepEdit.

Inductive PreviewMode := Desktop | Mobile.

Record EditRecord := mkEditRecord {
  instruction : string;
  timestamp : string;
  explanation : string
}.

(** The [useState] cells of [App]. *)
Record State := mkState {
  currentStep : Step;
  document : option Document;
  htmlContent : string;
  isProcessing : bool;
  editInstructions : string;
  editHistory : list EditRecord;
  previewMode : PreviewMode;
  error : option string;
  language : string
}.

(** The state of a freshly mounted [App]. *)
Definition initialState : State :=
  {| currentStep := StepUpload;
     document := None;
     htmlContent := "";
     isProcessing := false;
     editInstructions := "";
     editHistory := [];
     previewMode := Desktop;
     error := None;
     language := "en" |}.

(** The export formats the interface offers. *)
Inductive Format := FmtHtml | FmtPdf | FmtDocx | FmtPng.

Definition format_name (f : Format) : string :=
  match f with
  | FmtHtml => "html"
  | FmtPdf => "pdf"
  | FmtDocx => "docx"
  | FmtPng => "png"
  end.

(* ================================================================== *)
(** ** The outside world *)

Inductive DomOp := CreateElement | AppendChild | Click | RemoveChild | SetTimeout.

(** A scheduled callback. *)
Inductive Timer := RevokeObjectURL (u : string).

Inductive Event :=
| EvFetch (req : Request)
| EvSettled (out : FetchOutcome)
| EvConsoleError (label : string) (e : JsError)
| EvCreateObjectURL (u : string)
| EvAppendLink (href download : string)
| EvClick (href download : string)
| EvRemoveLink
| EvSetTimeout (cb : Timer) (delay : nat).

Record Env := mkEnv {
  fetch : Request -> FetchOutcome;
  toLocaleString : string;
  createObjectURL : Blob -> JsError + string;
  dom_throws : DomOp -> option JsError
}.

(** An event is a network call when it issues a request. *)
Definition is_fetch (ev : Event) : bool :=
  match ev with
  | EvFetch _ => true
  | _ => false
  end.

(** An event belongs to the local save when it touches the object URL or
    the download link. *)
Definition is_save (ev : Event) : bool :=
  match ev with
  | EvCreateObjectURL _ | EvAppendLink _ _ | EvClick _ _
  | EvRemoveLink | EvSetTimeout _ _ => true
  | _ => false
  end.

(** An event releases the object URL [u] when it schedules its revocation. *)
Definition is_release (u : string) (ev : Event) : bool :=
  match ev with
  | EvSetTimeout (RevokeObjectURL u') _ => String.eqb u u'
  | _ => false
  end.

(* ================================================================== *)
(** ** The monad of the handlers *)

(** The React state together with the log of what has happened; every
    logged event carries the state it happened in. *)
Record World := mkWorld {
  st : State;
  log : list (Event * State)
}.

Inductive Outcome (A : Type) :=
| Returned (a : A)
| Thrown (e : JsError).
Arguments Returned {A} a.
Arguments Thrown {A} e.

Definition M (A : Type) : Type := World -> Outcome A * World.

Definition ret {A} (a : A) : M A := fun w => (Returned a, w).

Definition bind {A B} (m : M A) (k : A -> M B) : M B :=
  fun w =>
    match m w with
    | (Returned a, w') => k a w'
    | (Thrown e, w') => (Thrown e, w')
    end.

Definition throw {A} (e : JsError) : M A := fun w => (Thrown e, w).

(** [try { m } catch (e) { h e }]. *)
Definition try_catch {A} (m : M A) (h : JsError -> M A) : M A :=
  fun w =>
    match m w with
    | (Returned a, w') => (Returned a, w')
    | (Thrown e, w') => h e w'
    end.

(** [try { m } finally { f }]. *)
Definition try_finally {A} (m : M A) (f : M unit) : M A :=
  fun w =>
    match m w with
    | (r, w') =>
        match f w' with
        | (Returned _, w'') => (r, w'')
        | (Thrown e, w'') => (Thrown e, w'')
        end
    end.

Definition emit (ev : Event) : M unit :=
  fun w => (Returned tt, {| st := st w; log := log w ++ [(ev, st w)] |}).

Definition modify (f : State -> State) : M unit :=
  fun w => (Returned tt, {| st := f (st w); log := log w |}).

Notation "x <- m ;; k" := (bind m (fun x => k))
  (at level 61, m at next level, right associativity).
Notation "m ;; k" := (bind m (fun _ => k))
  (at level 61, right associativity).

(** Runs a handler on a state, with an empty log. *)
Definition run {A} (m : M A) (s : State) : Outcome A * World :=
  m {| st := s; log := [] |}.

Definition final_state {A} (m : M A) (s : State) : State := st (snd (run m s)).

Definition events {A} (m : M A) (s : State) : list (Event * State) :=
  log (snd (run m s)).

(** The state setters. *)
Definition setCurrentStep (v : Step) : M unit :=
  modify (fun s => {| currentStep := v; document := document s;
    htmlContent := htmlContent s; isProcessing := isProcessing s;
    editInstructions := editInstructions s; editHistory := editHistory s;
    previewMode := previewMode s; error := error s; language := language s |}).

Definition setDocument (v : option Document) : M unit :=
  modify (fun s => {| currentStep := currentStep s; document := v;
    htmlContent := htmlContent s; isProcessing := isProcessing s;
    editInstructions := editInstructions s; editHistory := editHistory s;
    previewMode := previewMode s; error := error s; language := language s |}).

Definition setHtmlContent (v : string) : M unit :=
  modify (fun s => {| currentStep := currentStep s; document := document s;
    htmlContent := v; isProcessing := isProcessing s;
    editInstructions := editInstructions s; editHistory := editHistory s;
    previewMode := previewMode s; error := error s; language := language s |}).

Definition setIsProcessing (v : bool) : M unit :=
  modify (fun s => {| currentStep := currentStep s; document := document s;
    htmlContent := htmlContent s; isProcessing := v;
    editInstructions := editInstructions s; editHistory := editHistory s;
    previewMode := previewMode s; error := error s; language := language s |}).

Definition setEditInstructions (v : string) : M unit :=
  modify (fun s => {| currentStep := currentStep s; document := document s;
    htmlContent := htmlContent s; isProcessing := isProcessing s;
    editInstructions := v; editHistory := editHistory s;
    previewMode := previewMode s; error := error s; language := language s |}).

(** [setEditHistory(prev => f prev)]. *)
Definition setEditHistory (f : list EditRecord -> list EditRecord) : M unit :=
  modify (fun s => {| currentStep := currentStep s; document := document s;
    htmlContent := htmlContent s; isProcessing := isProcessing s;
    editInstructions := editInstructions s; editHistory := f (editHistory s);
    previewMode := previewMode s; error := error s; language := language s |}).

Definition setError (v : option string) : M unit :=
  modify (fun s => {| currentStep := currentStep s; document := document s;
    htmlContent := htmlContent s; isProcessing := isProcessing s;
    editInstructions := editInstructions s; editHistory := editHistory s;
    previewMode := previewMode s; error := v; language := language s |}).

Definition setLanguage (v : string) : M unit :=
  modify (fun s => {| currentStep := currentStep s; document := document s;
    htmlContent := htmlContent s; isProcessing := isProcessing s;
    editInstructions := editInstructions s; editHistory := editHistory s;
    previewMode := previewMode s; error := error s; language := v |}).

(** [await fetch(...)]: the request goes out, the promise settles, and a
    rejection is thrown at the [await]. *)
Definition await_fetch (env : Env) (req : Request) : M Response :=
  emit (EvFetch req) ;;
  emit (EvSettled (fetch env req)) ;;
  match fetch env req with
  | Rejected e => throw e
  | Resolved r => ret r
  end.

(** [await p] for an already modelled promise result. *)
Definition await {A} (p : JsError + A) : M A :=
  match p with
  | inl e => throw e
  | inr a => ret a
  end.

Definition console_error (label : string) (e : JsError) : M unit :=
  emit (EvConsoleError label e).

Definition get : M State := fun w => (Returned (st w), w).

(* ================================================================== *)
(** ** [class ApiService] *)

Record ApiService := mkApiService { baseURL : string }.

(** The constructor: [process.env.REACT_APP_API_URL] when it is set and
    non-empty, the local development endpoint otherwise. *)
Definition new_ApiService (REACT_APP_API_URL : option string) : ApiService :=
  {| baseURL := JsString.opt_or REACT_APP_API_URL "http://localhost:5004/api" |}.

(** The message for a response that is not [ok], the same in the three
    remote methods: the [error] property of the JSON body when there is a
    non-empty one, [fallback] when the body has none, and the status line
    when reading the body throws (no JSON, or the JSON value [null]). *)
Definition error_message (response : Response) (fallback : string) : string :=
  match resp_json response with
  | inr (Some errorData) => JsString.opt_or (r_error errorData) fallback
  | _ => "HTTP " ++ JsString.of_nat (status response) ++ ": " ++ statusText response
  end.

(** The outer [catch] of the three remote methods. *)
Definition connectivity_catch {A} (msg : string) (error : JsError) : M A :=
  if String.eqb (name error) "TypeError" && JsString.includes (message error) "fetch"
  then throw (new_Error msg)
  else throw error.

Definition uploadDocument (api : ApiService) (env : Env) (file : option File)
  : M (option JsonBody) :=
  match file with
  | None => throw (new_Error "No file provided")
  | Some f =>
      try_catch
        (response <- await_fetch env
           {| url := baseURL api ++ "/documents/upload"; body := FormData f |} ;;
         if negb (ok response) then
           throw (new_Error (error_message response "Upload failed"))
         else
           result <- await (resp_json response) ;;
           ret result)
        (connectivity_catch
           "Unable to connect to server. Please check if the backend is running.")
  end.

(** [editDocument] returns the promise of [response.json()] without
    awaiting it inside the [try], so a failure to parse the body does not
    pass through the [catch]. *)
Definition editDocument (api : ApiService) (env : Env)
    (instruction html language : string) (documentId : option string)
  : M (option JsonBody) :=
  if negb (JsString.truthy instruction) || negb (JsString.truthy html) then
    throw (new_Error "Instruction and HTML content are required")
  else
    p <- try_catch
           (response <- await_fetch env
              {| url := baseURL api ++ "/documents/edit";
                 body := EditJson documentId instruction html language |} ;;
            if negb (ok response) then
              throw (new_Error (error_message response "Edit failed"))
            else
              ret (resp_json response))
           (connectivity_catch
              "Unable to connect to server for editing. Please check if the backend is running.") ;;
    await p.

Definition convertDocument (api : ApiService) (env : Env)
    (html format : string) (filename : option string) : M Blob :=
  if negb (JsString.truthy html) || negb (JsString.truthy format) then
    throw (new_Error "HTML content and format are required")
  else
    try_catch
      (response <- await_fetch env
         {| url := baseURL api ++ "/conversion/convert";
            body := ConvertJson html format filename |} ;;
       if negb (ok response) then
         throw (new_Error (error_message response "Conversion failed"))
       else
         blob <- await (resp_blob response) ;;
         if (blob_size blob =? 0)%nat then
           throw (new_Error "Received empty file from server")
         else
           ret blob)
      (connectivity_catch
         "Unable to connect to server for conversion. Please check if the backend is running.").

(** A DOM call that may throw. *)
Definition dom (env : Env) (op : DomOp) : M unit :=
  match dom_throws env op with
  | Some e => throw e
  | None => ret tt
  end.

Definition downloadFile (env : Env) (blob : Blob) (filename : string) : M unit :=
  try_catch
    (url <- await (createObjectURL env blob) ;;
     emit (EvCreateObjectURL url) ;;
     dom env CreateElement ;;
     let href := url in
     let download := JsString.or_else filename "download" in
     dom env AppendChild ;;
     emit (EvAppendLink href download) ;;
     dom env Click ;;
     emit (EvClick href download) ;;
     dom env RemoveChild ;;
     emit EvRemoveLink ;;
     dom env SetTimeout ;;
     emit (EvSetTimeout (RevokeObjectURL url) 100))
    (fun error =>
       console_error "Download error:" error ;;
       throw (new_Error "Failed to download file")).

(* ================================================================== *)
(** ** [function App]: the handlers *)

Definition handleFileUpload (api : ApiService) (env : Env) (file : option File)
  : M unit :=
  match file with
  | None => ret tt
  | Some _ =>
      setIsProcessing true ;;
      setError None ;;
      try_finally
        (try_catch
           (response <- uploadDocument api env file ;;
            match response with
            | Some r =>
                match r_success r, r_document r with
                | true, Some d =>
                    setDocument (Some d) ;;
                    setHtmlContent (JsString.opt_or (doc_html d) "") ;;
                    setLanguage (JsString.opt_or (doc_language d) "en") ;;
                    setCurrentStep StepPreview
                | _, _ => throw (new_Error "Invalid response from server")
                end
            | None => throw (new_Error "Invalid response from server")
            end)
           (fun err =>
              console_error "Upload error:" err ;;
              setError (Some (JsString.or_else (message err)
                                "Upload failed. Please try again."))))
        (setIsProcessing false)
  end.

(** [handleFileSelect]: the first file of the input, when there is one. *)
Definition handleFileSelect (api : ApiService) (env : Env) (files : list File)
  : M unit :=
  match files with
  | file :: _ => handleFileUpload api env (Some file)
  | [] => ret tt
  end.

(** [response.modifiedHTML] when it is truthy. *)
Definition usable_markup (r : JsonBody) : option string :=
  match r_modifiedHTML r with
  | Some m => if JsString.truthy m then Some m else None
  | None => None
  end.

(** The handler reads [editInstructions], [htmlContent], [language] and
    [document] of the render it was created in. *)
Definition handleAIEdit (api : ApiService) (env : Env) : M unit :=
  c <- get ;;
  if negb (JsString.truthy (JsString.trim (editInstructions c))) then
    setError (Some "Please enter an instruction")
  else if negb (JsString.truthy (htmlContent c)) then
    setError (Some "No document content to edit")
  else
    setIsProcessing true ;;
    setError None ;;
    try_finally
      (try_catch
         (response <- editDocument api env (editInstructions c) (htmlContent c)
                        (language c)
                        (match document c with
                         | Some d => doc_id d
                         | None => None
                         end) ;;
          match response with
          | Some r =>
              match r_success r, usable_markup r with
              | true, Some modifiedHTML =>
                  setHtmlContent modifiedHTML ;;
                  setEditHistory (fun prev => (prev ++
                    [ {| instruction := editInstructions c;
                         timestamp := toLocaleString env;
                         explanation := JsString.opt_or (r_explanation r)
                                          "Changes applied successfully" |} ])%list) ;;
                  setEditInstructions ""
              | _, _ => throw (new_Error (JsString.opt_or (r_error r) "Edit failed"))
              end
          | None => throw (new_Error "Edit failed")
          end)
         (fun err =>
            console_error "Edit error:" err ;;
            setError (Some (JsString.or_else (message err)
                      "Failed to process edit instruction. Please try again."))))
      (setIsProcessing false).

(** The file name of an export: the original name up to its first dot, or
    [document], then a dot and the format. *)
Definition export_filename (doc : option Document) (format : Format) : string :=
  JsString.opt_or
    (match doc with
     | Some d => option_map JsString.before_dot (originalName d)
     | None => None
     end) "document" ++ "." ++ format_name format.

Definition downloadAsFormat (api : ApiService) (env : Env) (format : Format)
  : M unit :=
  c <- get ;;
  if negb (JsString.truthy (htmlContent c)) then
    setError (Some "No document content to download")
  else
    setIsProcessing true ;;
    setError None ;;
    try_finally
      (try_catch
         (let filename := export_filename (document c) format in
          blob <- convertDocument api env (htmlContent c) (format_name format)
                    (Some filename) ;;
          if (0 <? blob_size blob)%nat then
            downloadFile env blob filename
          else
            throw (new_Error "Failed to generate download file"))
         (fun err =>
            console_error "Download error:" err ;;
            setError (Some (JsString.or_else (message err)
                      ("Failed to download " ++
                       JsString.toUpperCase (format_name format) ++
                       " file. Please try again.")))))
      (setIsProcessing false).

Definition resetDocument : M unit :=
  setDocument None ;;
  setHtmlContent "" ;;
  setEditHistory (fun _ => []) ;;
  setError None ;;
  setLanguage "en" ;;
  setCurrentStep StepUpload ;;
  setEditInstructions "".

(* ================================================================== *)
(** ** Vocabulary of the specification *)

(** A property of a JSON object with a default "if absent": the value when
    the property is there, the default when it is not. *)
Definition field_or_default (field : option string) (default : string) : string :=
  match field with
  | Some v => v
  | None => default
  end.

(** A blank text: empty, or white space only. *)
Fixpoint blank (s : string) : bool :=
  match s with
  | EmptyString => true
  | String c rest => JsString.is_space c && blank rest
  end.

(** Everything but the error message and the processing flag is the same
    in [s] and [s']. *)
Definition same_but_error_and_processing (s s' : State) : Prop :=
  currentStep s' = currentStep s /\
  document s' = document s /\
  htmlContent s' = htmlContent s /\
  editInstructions s' = editInstructions s /\
  editHistory s' = editHistory s /\
  previewMode s' = previewMode s /\
  language s' = language s.

(** The requests the three remote methods send. *)
Definition upload_request (api : ApiService) (f : File) : Request :=
  {| url := baseURL api ++ "/documents/upload"; body := FormData f |}.

Definition edit_request (api : ApiService) (s : State) : Request :=
  {| url := baseURL api ++ "/documents/edit";
     body := EditJson (match document s with
                       | Some d => doc_id d
                       | None => None
                       end)
                      (editInstructions s) (htmlContent s) (language s) |}.

Definition convert_request (api : ApiService) (s : State) (format : Format)
  : Request :=
  {| url := baseURL api ++ "/conversion/convert";
     body := ConvertJson (htmlContent s) (format_name format)
               (Some (export_filename (document s) format)) |}.

(** The discipline of a handler that performs I/O, on a run from [s]: the
    handler returns normally; its first two events are the request and its
    settlement, both in one state where the error is cleared and the
    processing flag is set; the flag stays set at every later event, none of
    which is another request; and the flag is cleared in the end. *)
Definition io_discipline (env : Env) (h : M unit) (s : State) : Prop :=
  fst (run h s) = Returned tt /\
  exists req sp rest,
    events h s = (EvFetch req, sp) :: (EvSettled (fetch env req), sp) :: rest /\
    error sp = None /\
    isProcessing sp = true /\
    Forall (fun p => isProcessing (snd p) = true /\ is_fetch (fst p) = false) rest /\
    isProcessing (final_state h s) = false.

(** A computation that leaves the React state as it found it. *)
Definition keeps_state {A} (m : M A) : Prop :=
  forall w, st (snd (m w)) = st w.

(** No event of the log belongs to the local save. *)
Definition no_save (l : list (Event * State)) : Prop :=
  Forall (fun p => is_save (fst p) = false) l.

(** No event of the log is a network call. *)
Definition no_fetch (l : list (Event * State)) : Prop :=
  Forall (fun p => is_fetch (fst p) = false) l.

(* ================================================================== *)
(** ** Scenarios

    Concrete files, documents, responses and worlds, among them the
    scenarios the specification lists. *)

Module Scenario.

Definition api : ApiService := new_ApiService None.

Definition file : File := {| file_name := "a.txt"; file_size := 2048 |}.

Definition doc : Document :=
  {| doc_id := Some "d1";
     originalName := Some "a.txt";
     doc_type := Some "text";
     doc_language := Some "en";
     doc_html := Some "<p>hi</p>";
     doc_metadata := None |}.

(** The same document, sent by a backend that leaves the language empty. *)
Definition doc_empty_language : Document :=
  {| doc_id := Some "d1";
     originalName := Some "a.txt";
     doc_type := Some "text";
     doc_language := Some "";
     doc_html := Some "<p>hi</p>";
     doc_metadata := None |}.

Definition upload_body (d : Document) : JsonBody :=
  {| r_success := true;
     r_document := Some d;
     r_modifiedHTML := None;
     r_explanation := None;
     r_error := None |}.

Definition edit_body (explanation : option string) : JsonBody :=
  {| r_success := true;
     r_document := None;
     r_modifiedHTML := Some "<h1><b>Hi</b></h1>";
     r_explanation := explanation;
     r_error := None |}.

Definition error_body (msg : string) : JsonBody :=
  {| r_success := false;
     r_document := None;
     r_modifiedHTML := None;
     r_explanation := None;
     r_error := Some msg |}.

(** A response with a JSON body. *)
Definition json_response (code : nat) (text : string) (b : JsonBody)
  : Response :=
  {| status := code;
     statusText := text;
     resp_json := inr (Some b);
     resp_blob := inr {| blob_size := 64 |} |}.

(** A response with a binary body of [n] bytes. *)
Definition binary_response (n : nat) : Response :=
  {| status := 200;
     statusText := "OK";
     resp_json := inl {| name := "SyntaxError";
                         message := "Unexpected token in JSON" |};
     resp_blob := inr {| blob_size := n |} |}.

(** A world where every request settles to [out] and the DOM works. *)
Definition world (out : FetchOutcome) : Env :=
  {| fetch := fun _ => out;
     toLocaleString := "1/1/2026, 10:00:00 AM";
     createObjectURL := fun _ => inr "blob:1";
     dom_throws := fun _ => None |}.

(** A world where the click on the download link throws. *)
Definition click_error : JsError :=
  {| name := "Error"; message := "click failed" |}.

Definition world_click_throws : Env :=
  {| fetch := fun _ => Resolved (binary_response 10);
     toLocaleString := "1/1/2026, 10:00:00 AM";
     createObjectURL := fun _ => inr "blob:1";
     dom_throws := fun op => match op with
                             | Click => Some click_error
                             | _ => None
                             end |}.

(** The rejections of [fetch] when the server is down, as two browsers
    word them. *)
Definition failed_to_fetch : JsError :=
  {| name := "TypeError"; message := "Failed to fetch" |}.

Definition load_failed : JsError :=
  {| name := "TypeError"; message := "Load failed" |}.

(** In the middle of an editing session. *)
Definition editing : State :=
  {| currentStep := StepEdit;
     document := Some doc;
     htmlContent := "<h1>Hi</h1>";
     isProcessing := false;
     editInstructions := "make title bold";
     editHistory := [];
     previewMode := Desktop;
     error := None;
     language := "en" |}.

(** The same session after one edit has been applied. *)
Definition edited : State :=
  {| currentStep := StepEdit;
     document := Some doc;
     htmlContent := "<h1><b>Hi</b></h1>";
     isProcessing := false;
     editInstructions := "make it red";
     editHistory := [ {| instruction := "make title bold";
                         timestamp := "1/1/2026, 10:00:00 AM";
                         explanation := "Bolded title" |} ];
     previewMode := Desktop;
     error := None;
     language := "en" |}.

(** The instruction input holds white space only. *)
Definition blank_input : State :=
  {| currentStep := StepEdit;
     document := Some doc;
     htmlContent := "<h1>Hi</h1>";
     isProcessing := false;
     editInstructions := "   ";
     editHistory := [];
     previewMode := Desktop;
     error := None;
     language := "en" |}.

End Scenario.

(* ================================================================== *)
(** ** The page: what [App] renders and what the user can do *)

Definition setPreviewMode (v : PreviewMode) : M unit :=
  modify (fun s => {| currentStep := currentStep s; document := document s;
    htmlContent := htmlContent s; isProcessing := isProcessing s;
    editInstructions := editInstructions s; editHistory := editHistory s;
    previewMode := v; error := error s; language := language s |}).

(** [currentStep === 'upload' && (...)]. *)
Definition upload_panel (s : State) : bool :=
  match currentStep s with
  | StepUpload => true
  | _ => false
  end.

(** [currentStep === 'preview' && document && (...)]. *)
Definition preview_panel (s : State) : bool :=
  match currentStep s, document s with
  | StepPreview, Some _ => true
  | _, _ => false
  end.

(** [currentStep === 'edit' && (...)]. *)
Definition edit_panel (s : State) : bool :=
  match currentStep s with
  | StepEdit => true
  | _ => false
  end.

(** [error && <ErrorAlert message={error} ... />]. *)
Definition error_alert (s : State) : bool :=
  match error s with
  | Some msg => JsString.truthy msg
  | None => false
  end.

(** [l.slice(-n)]: the last [n] elements, all of them when there are
    fewer. *)
Definition slice_last {A} (n : nat) (l : list A) : list A :=
  skipn (length l - n) l.

(** The records the history box lists: [editHistory.slice(-5)]. *)
Definition visible_history (s : State) : list EditRecord :=
  slice_last 5 (editHistory s).

(** [editHistory.length > 5 && <p>Showing last 5 edits</p>]. *)
Definition truncation_note (s : State) : bool :=
  (5 <? length (editHistory s))%nat.

(** What the user can do on the page. *)
Inductive Action :=
| PickFiles (files : list File)
| NewDocument
| CloseError
| ChoosePreviewMode (mode : PreviewMode)
| StartEditing
| BackToPreview
| TypeInstructions (text : string)
| ApplyChanges
| Download (format : Format).

(** The control of an action is on the page and not disabled. *)
Definition enabled (s : State) (a : Action) : bool :=
  match a with
  | PickFiles _ => upload_panel s && negb (isProcessing s)
  | NewDocument => negb (upload_panel s)
  | CloseError => error_alert s
  | ChoosePreviewMode _ => preview_panel s
  | StartEditing => preview_panel s
  | BackToPreview => edit_panel s
  | TypeInstructions _ => edit_panel s && negb (isProcessing s)
  | ApplyChanges =>
      edit_panel s &&
      negb (isProcessing s ||
            negb (JsString.truthy (JsString.trim (editInstructions s))))
  | Download FmtHtml => (preview_panel s || edit_panel s) && negb (isProcessing s)
  | Download _ => edit_panel s && negb (isProcessing s)
  end.

(** The handler behind each control. *)
Definition perform (api : ApiService) (env : Env) (a : Action) : M unit :=
  match a with
  | PickFiles files => handleFileSelect api env files
  | NewDocument => resetDocument
  | CloseError => setError None
  | ChoosePreviewMode mode => setPreviewMode mode
  | StartEditing => setCurrentStep StepEdit
  | BackToPreview => setCurrentStep StepPreview
  | TypeInstructions text => setEditInstructions text
  | ApplyChanges => handleAIEdit api env
  | Download format => downloadAsFormat api env format
  end.

(** The states a session goes through, each action running to its end
    before the next one starts; the outside world may answer differently
    every time. *)
Inductive reachable (api : ApiService) : State -> Prop :=
| reach_initial : reachable api initialState
| reach_action (s : State) (env : Env) (a : Action) :
    reachable api s ->
    enabled s a = true ->
    reachable api (final_state (perform api env a) s).

(** What holds of the state between two actions of a session. *)
Definition at_rest (s : State) : Prop :=
  isProcessing s = false /\
  (currentStep s = StepUpload ->
     document s = None /\ htmlContent s = "" /\ editHistory s = [] /\
     language s = "en" /\ editInstructions s = "") /\
  (currentStep s <> StepUpload -> document s <> None) /\
  (forall msg, error s = Some msg -> msg <> "") /\
  language s <> "" /\
  Forall (fun r => blank (instruction r) = false /\ explanation r <> "")
    (editHistory s).

(** [await fetch(...)] on a page that stays live: between the request and
    its settlement other handlers may run; [meanwhile] is what they do to the
    state. *)
Definition await_fetch_meanwhile (env : Env) (req : Request)
    (meanwhile : State -> State) : M Response :=
  emit (EvFetch req) ;;
  modify meanwhile ;;
  emit (EvSettled (fetch env req)) ;;
  match fetch env req with
  | Rejected e => throw e
  | Resolved r => ret r
  end.

(** [editDocument], with what happens on the page while its request is
    pending. *)
Definition editDocument_pending (api : ApiService) (env : Env)
    (instruction html language : string) (documentId : option string)
    (meanwhile : State -> State) : M (option JsonBody) :=
  if negb (JsString.truthy instruction) || negb (JsString.truthy html) then
    throw (new_Error "Instruction and HTML content are required")
  else
    p <- try_catch
           (response <- await_fetch_meanwhile env
              {| url := baseURL api ++ "/documents/edit";
                 body := EditJson documentId instruction html language |}
              meanwhile ;;
            if negb (ok response) then
              throw (new_Error (error_message response "Edit failed"))
            else
              ret (resp_json response))
           (connectivity_catch
              "Unable to connect to server for editing. Please check if the backend is running.") ;;
    await p.

(** [handleAIEdit], with what happens on the page while its request is
    pending.  What the handler does after the [await] uses the values of
    the render it was created in and writes to the state as it is then. *)
Definition handleAIEdit_pending (api : ApiService) (env : Env)
    (meanwhile : State -> State) : M unit :=
  c <- get ;;
  if negb (JsString.truthy (JsString.trim (editInstructions c))) then
    setError (Some "Please enter an instruction")
  else if negb (JsString.truthy (htmlContent c)) then
    setError (Some "No document content to edit")
  else
    setIsProcessing true ;;
    setError None ;;
    try_finally
      (try_catch
         (response <- editDocument_pending api env (editInstructions c)
                        (htmlContent c) (language c)
                        (match document c with
                         | Some d => doc_id d
                         | None => None
                         end)
                        meanwhile ;;
          match response with
          | Some r =>
              match r_success r, usable_markup r with
              | true, Some modifiedHTML =>
                  setHtmlContent modifiedHTML ;;
                  setEditHistory (fun prev => (prev ++
                    [ {| instruction := editInstructions c;
                         timestamp := toLocaleString env;
                         explanation := JsString.opt_or (r_explanation r)
                                          "Changes applied successfully" |} ])%list) ;;
                  setEditInstructions ""
              | _, _ => throw (new_Error (JsString.opt_or (r_error r) "Edit failed"))
              end
          | None => throw (new_Error "Edit failed")
          end)
         (fun err =>
            console_error "Edit error:" err ;;
            setError (Some (JsString.or_else (message err)
                      "Failed to process edit instruction. Please try again."))))
      (setIsProcessing false).

(** The state while the request of a handler is pending: the flag is set
    and the error cleared. *)
Definition pending_state (s : State) : State :=
  {| currentStep := currentStep s; document := document s;
     htmlContent := htmlContent s; isProcessing := true;
     editInstructions := editInstructions s; editHistory := editHistory s;
     previewMode := previewMode s; error := None; language := language s |}.

(** The number of dots of a string. *)
Fixpoint count_dots (s : string) : nat :=
  match s with
  | EmptyString => 0
  | String c rest => (if Ascii.eqb c "."%char then 1 else 0) + count_dots rest
  end.

(** The message of a remote method for a response that is not [ok]: the
    text of the body's [error] when the body is a JSON object with a
    non-empty one, [fallback] when the object has none, and the status line
    when the body is no JSON or is [null]. *)
Definition failure_message (resp : Response) (fallback msg : string) : Prop :=
  (forall b t, resp_json resp = inr (Some b) -> r_error b = Some t ->
               t <> "" -> msg = t) /\
  (forall b, resp_json resp = inr (Some b) ->
             r_error b = None \/ r_error b = Some "" -> msg = fallback) /\
  (resp_json resp = inr None \/ (exists e, resp_json resp = inl e) ->
   msg = ("HTTP " ++ JsString.of_nat (status resp) ++ ": " ++ statusText resp)%string).

(** The events of a log, without the states they happened in. *)
Definition trace (l : list (Event * State)) : list Event := map fst l.

(** A session of two actions: the document [d1] is uploaded, then opened
    for editing. *)
Module Session.

Definition uploaded : State :=
  final_state
    (perform Scenario.api
       (Scenario.world (Resolved (Scenario.json_response 200 "OK"
                                    (Scenario.upload_body Scenario.doc))))
       (PickFiles [Scenario.file]))
    initialState.

Definition opened : State :=
  final_state
    (perform Scenario.api (Scenario.world (Rejected Scenario.failed_to_fetch))
       StartEditing)
    uploaded.

(** A document whose original name starts with a dot. *)
Definition dotfile : Document :=
  {| doc_id := Some "d2";
     originalName := Some ".bashrc";
     doc_type := Some "text";
     doc_language := None;
     doc_html := Some "<pre>ls</pre>";
     doc_metadata := None |}.

(** A response whose body is not JSON. *)
Definition html_error_page (code : nat) (text : string) : Response :=
  {| status := code;
     statusText := text;
     resp_json := inl {| name := "SyntaxError";
                         message := "Unexpected token < in JSON" |};
     resp_blob := inr {| blob_size := 512 |} |}.

(** A 2xx response whose body cannot be read because the connection broke:
    the TypeError mentions fetch. *)
Definition broken_body : Response :=
  {| status := 200;
     statusText := "OK";
     resp_json := inl Scenario.failed_to_fetch;
     resp_blob := inl Scenario.failed_to_fetch |}.

(** A world where the object URL cannot be created. *)
Definition world_no_object_url : Env :=
  {| fetch := fun _ => Resolved (Scenario.binary_response 10);
     toLocaleString := "1/1/2026, 10:00:00 AM";
     createObjectURL := fun _ => inl {| name := "TypeError";
                                       message := "createObjectURL failed" |};
     dom_throws := fun _ => None |}.

(** Seven records, numbered by their instruction. *)
Definition numbered (i : string) : EditRecord :=
  {| instruction := i; timestamp := "1/1/2026, 10:00:00 AM";
     explanation := "Changes applied successfully" |}.

Definition long_history : State :=
  {| currentStep := StepEdit;
     document := Some Scenario.doc;
     htmlContent := "<h1>Hi</h1>";
     isProcessing := false;
     editInstructions := "";
     editHistory := map numbered ["1"; "2"; "3"; "4"; "5"; "6"; "7"];
     previewMode := Desktop;
     error := None;
     language := "en" |}.

End Session.

(* ================================================================== *)
(** ** Strings *)

Lemma truthy_true_iff (s : string) : JsString.truthy s = true <-> s <> "".
Proof.
  destruct s; simpl; split; intro H; try congruence; try discriminate.
Qed.

Lemma or_else_nonempty (a d : string) : d <> "" -> JsString.or_else a d <> "".
Proof.
  intro Hd. unfold JsString.or_else.
  destruct (JsString.truthy a) eqn:Ha; [now apply truthy_true_iff | exact Hd].
Qed.

Lemma or_else_truthy (a d : string) : a <> "" -> JsString.or_else a d = a.
Proof.
  intro Ha. unfold JsString.or_else.
  now destruct a.
Qed.

Lemma opt_or_nonempty (a : option string) (d : string) :
  d <> "" -> JsString.opt_or a d <> "".
Proof.
  destruct a; simpl; [apply or_else_nonempty | trivial].
Qed.

Lemma opt_or_empty_default (a : option string) :
  JsString.opt_or a "" = field_or_default a "".
Proof.
  destruct a as [[|c r]|]; reflexivity.
Qed.

Lemma append_nonempty_l (a b : string) : a <> "" -> (a ++ b)%string <> "".
Proof.
  destruct a; simpl; [congruence | discriminate].
Qed.

Lemma error_message_nonempty (response : Response) (fallback : string) :
  fallback <> "" -> error_message response fallback <> "".
Proof.
  intro Hf. unfold error_message.
  destruct (resp_json response) as [e|[b|]];
    try (apply append_nonempty_l; discriminate).
  now apply opt_or_nonempty.
Qed.

Lemma trimStart_blank (s : string) : blank s = true -> JsString.trimStart s = "".
Proof.
  induction s as [|c r IH]; simpl; [reflexivity|].
  intro H. apply andb_prop in H as [Hc Hr].
  rewrite Hc. now apply IH.
Qed.

Lemma trimStart_not_blank (s : string) :
  blank s = false ->
  exists c r, JsString.trimStart s = String c r /\ JsString.is_space c = false.
Proof.
  induction s as [|c r IH]; simpl; [discriminate|].
  destruct (JsString.is_space c) eqn:Hc; simpl.
  - exact IH.
  - intros _. now exists c, r.
Qed.

Lemma trimEnd_head_kept (c : ascii) (r : string) :
  JsString.is_space c = false -> JsString.trimEnd (String c r) <> "".
Proof.
  intro Hc. simpl. rewrite Hc.
  destruct (JsString.trimEnd r); discriminate.
Qed.

(** [trim] leaves nothing exactly of the blank texts. *)
Lemma trim_truthy_blank (s : string) :
  JsString.truthy (JsString.trim s) = negb (blank s).
Proof.
  unfold JsString.trim.
  destruct (blank s) eqn:Hb; simpl.
  - now rewrite trimStart_blank.
  - destruct (trimStart_not_blank s Hb) as (c & r & -> & Hc).
    apply truthy_true_iff. now apply trimEnd_head_kept.
Qed.

(* ================================================================== *)
(** ** Running the handlers *)

Ltac unfold_handlers :=
  unfold io_discipline, no_save, no_fetch, same_but_error_and_processing,
    final_state, events, run,
    handleFileUpload, handleAIEdit, downloadAsFormat, resetDocument,
    uploadDocument, editDocument, convertDocument, downloadFile,
    upload_request, edit_request, convert_request,
    connectivity_catch, await_fetch, await, console_error, dom,
    setCurrentStep, setDocument, setHtmlContent, setIsProcessing,
    setEditInstructions, setEditHistory, setError, setLanguage,
    bind, try_catch, try_finally, ret, throw, emit, modify, get in *.

(* ================================================================== *)
(** ** Reset *)

(** C3. From any state, [resetDocument] leaves step = Upload, no document,
    htmlContent = "", editHistory = [], no error and language = "en" (the
    values of the initial state), it also empties the instruction input and
    does no I/O; only the processing flag and the preview mode are kept.
    Resetting twice is the same as resetting once. *)
Theorem reset_yields_initial_state (s : State) :
  run resetDocument s =
    (Returned tt,
     {| st := {| currentStep := StepUpload;
                 document := None;
                 htmlContent := "";
                 isProcessing := isProcessing s;
                 editInstructions := "";
                 editHistory := [];
                 previewMode := previewMode s;
                 error := None;
                 language := "en" |};
        log := [] |}) /\
  currentStep (final_state resetDocument s) = currentStep initialState /\
  document (final_state resetDocument s) = document initialState /\
  htmlContent (final_state resetDocument s) = htmlContent initialState /\
  editHistory (final_state resetDocument s) = editHistory initialState /\
  error (final_state resetDocument s) = error initialState /\
  language (final_state resetDocument s) = language initialState /\
  final_state resetDocument (final_state resetDocument s) =
    final_state resetDocument s.
Proof.
  repeat split.
Qed.

(** A reset while nothing is in flight and the preview is on desktop gives
    back the initial state itself. *)
Lemma reset_is_initialState (s : State) :
  isProcessing s = false -> previewMode s = Desktop ->
  final_state resetDocument s = initialState.
Proof.
  intros Hp Hm.
  transitivity {| currentStep := StepUpload; document := None;
                  htmlContent := ""; isProcessing := isProcessing s;
                  editInstructions := ""; editHistory := [];
                  previewMode := previewMode s; error := None;
                  language := "en" |}; [reflexivity|].
  now rewrite Hp, Hm.
Qed.

(* ================================================================== *)
(** ** Upload *)

(** C10. [handleFileUpload] with no file returns at once: the state is
    unchanged (no error, no processing flag) and nothing is logged.  The
    service's own check, which would throw 'No file provided', is not
    reached. *)
Theorem upload_absent_file_is_noop (api : ApiService) (env : Env) (s : State) :
  run (handleFileUpload api env None) s = (Returned tt, {| st := s; log := [] |}) /\
  final_state (handleFileUpload api env None) s = s /\
  events (handleFileUpload api env None) s = [] /\
  fst (run (uploadDocument api env None) s) = Thrown (new_Error "No file provided").
Proof.
  repeat split.
Qed.

(* ================================================================== *)
(** ** Validation before I/O *)

Lemma edit_blank_instruction (api : ApiService) (env : Env) (s : State) :
  blank (editInstructions s) = true ->
  run (handleAIEdit api env) s =
    run (setError (Some "Please enter an instruction")) s.
Proof.
  intro Hb. unfold run, handleAIEdit, bind, get. cbn [st].
  rewrite trim_truthy_blank, Hb. reflexivity.
Qed.

Lemma edit_no_content (api : ApiService) (env : Env) (s : State) :
  blank (editInstructions s) = false -> htmlContent s = "" ->
  run (handleAIEdit api env) s =
    run (setError (Some "No document content to edit")) s.
Proof.
  intros Hb Hh. unfold run, handleAIEdit, bind, get. cbn [st].
  rewrite trim_truthy_blank, Hb, Hh. reflexivity.
Qed.

Lemma export_no_content (api : ApiService) (env : Env) (format : Format)
    (s : State) :
  htmlContent s = "" ->
  run (downloadAsFormat api env format) s =
    run (setError (Some "No document content to download")) s.
Proof.
  intro Hh. unfold run, downloadAsFormat, bind, get. cbn [st].
  rewrite Hh. reflexivity.
Qed.

(** C5. An edit submitted with a blank instruction or with empty working
    content, and an export requested with empty working content, make no
    network call (nothing at all is logged), set the error at once, and
    leave htmlContent, editHistory and every other cell as they were. *)
Theorem invalid_submission_sets_error_without_io
    (api : ApiService) (env : Env) (format : Format) (s : State) :
  (blank (editInstructions s) = true \/ htmlContent s = "" ->
     events (handleAIEdit api env) s = [] /\
     no_fetch (events (handleAIEdit api env) s) /\
     (exists msg, error (final_state (handleAIEdit api env) s) = Some msg /\
                  msg <> "") /\
     htmlContent (final_state (handleAIEdit api env) s) = htmlContent s /\
     editHistory (final_state (handleAIEdit api env) s) = editHistory s /\
     isProcessing (final_state (handleAIEdit api env) s) = isProcessing s /\
     same_but_error_and_processing s (final_state (handleAIEdit api env) s)) /\
  (htmlContent s = "" ->
     events (downloadAsFormat api env format) s = [] /\
     no_fetch (events (downloadAsFormat api env format) s) /\
     error (final_state (downloadAsFormat api env format) s) =
       Some "No document content to download" /\
     htmlContent (final_state (downloadAsFormat api env format) s) = htmlContent s /\
     editHistory (final_state (downloadAsFormat api env format) s) = editHistory s /\
     isProcessing (final_state (downloadAsFormat api env format) s) = isProcessing s /\
     same_but_error_and_processing s
       (final_state (downloadAsFormat api env format) s)).
Proof.
  split.
  - intros H.
    assert (Hrun : exists msg, msg <> "" /\
              run (handleAIEdit api env) s = run (setError (Some msg)) s).
    { destruct (blank (editInstructions s)) eqn:Hb.
      - eexists; split; [|now apply edit_blank_instruction]. discriminate.
      - destruct H as [H|H]; [discriminate|].
        eexists; split; [|now apply edit_no_content]. discriminate. }
    destruct Hrun as (msg & Hmsg & Hrun).
    unfold final_state, events, no_fetch. rewrite Hrun.
    unfold same_but_error_and_processing. cbn.
    repeat split; try constructor. now exists msg.
  - intros H. unfold final_state, events, no_fetch.
    rewrite (export_no_content api env format s H).
    unfold same_but_error_and_processing. cbn.
    repeat split; constructor.
Qed.

(** C1 (as amended). When the upload completes (the status is 2xx and the
    body parses) and the response has the success flag and a document, the
    handler ends with step = Preview, that document stored, htmlContent equal
    to the document's markup (the empty string if the markup is absent) and
    language equal to the document's language when that is a non-empty
    string, "en" when it is absent or empty; no error is set and the
    processing flag is cleared. *)
Theorem upload_success_state
    (api : ApiService) (env : Env) (f : File) (s : State)
    (resp : Response) (r : JsonBody) (d : Document) :
  fetch env (upload_request api f) = Resolved resp ->
  ok resp = true ->
  resp_json resp = inr (Some r) ->
  r_success r = true ->
  r_document r = Some d ->
  currentStep (final_state (handleFileUpload api env (Some f)) s) = StepPreview /\
  document (final_state (handleFileUpload api env (Some f)) s) = Some d /\
  htmlContent (final_state (handleFileUpload api env (Some f)) s) =
    field_or_default (doc_html d) "" /\
  (forall l, doc_language d = Some l -> l <> "" ->
     language (final_state (handleFileUpload api env (Some f)) s) = l) /\
  (doc_language d = None \/ doc_language d = Some "" ->
     language (final_state (handleFileUpload api env (Some f)) s) = "en") /\
  error (final_state (handleFileUpload api env (Some f)) s) = None /\
  isProcessing (final_state (handleFileUpload api env (Some f)) s) = false.
Proof.
  intros Hfetch Hok Hjson Hsucc Hdoc.
  unfold_handlers. cbn. rewrite Hfetch. cbn. rewrite Hok. cbn.
  rewrite Hjson. cbn. rewrite Hsucc, Hdoc. cbn.
  repeat split.
  - apply opt_or_empty_default.
  - intros l Hl Hne. rewrite Hl. cbn. now apply or_else_truthy.
  - intros [Hl|Hl]; rewrite Hl; reflexivity.
Qed.

(** The text the upload handler shows when the server cannot be reached. *)
Lemma connectivity_message_hint :
  JsString.includes
    "Unable to connect to server. Please check if the backend is running."
    "check if the backend is running" = true.
Proof. reflexivity. Qed.

(** What [handleFileUpload] does when the upload fails, by a status that is
    not 2xx or by a rejected [fetch]: the step and the document are as before (so step
    = Upload and no document, when that is where the upload started), the
    processing flag is cleared and the error is a non-empty message.  After
    a rejected [fetch] the message is the connectivity message, which
    contains "check if the backend is running", when the rejection is a
    TypeError whose message contains "fetch"; for any other rejection it is
    the rejection's own message, or 'Upload failed. Please try again.' when
    that is empty. *)
Theorem upload_failure_state
    (api : ApiService) (env : Env) (f : File) (s : State) :
  match fetch env (upload_request api f) with
  | Rejected _ => True
  | Resolved resp => ok resp = false
  end ->
  currentStep (final_state (handleFileUpload api env (Some f)) s) = currentStep s /\
  document (final_state (handleFileUpload api env (Some f)) s) = document s /\
  (currentStep s = StepUpload -> document s = None ->
     currentStep (final_state (handleFileUpload api env (Some f)) s) = StepUpload /\
     document (final_state (handleFileUpload api env (Some f)) s) = None) /\
  isProcessing (final_state (handleFileUpload api env (Some f)) s) = false /\
  exists msg,
    error (final_state (handleFileUpload api env (Some f)) s) = Some msg /\
    msg <> "" /\
    forall e, fetch env (upload_request api f) = Rejected e ->
      (name e = "TypeError" -> JsString.includes (message e) "fetch" = true ->
         msg = "Unable to connect to server. Please check if the backend is running." /\
         JsString.includes msg "check if the backend is running" = true) /\
      (name e <> "TypeError" \/ JsString.includes (message e) "fetch" = false ->
         (message e <> "" -> msg = message e) /\
         (message e = "" -> msg = "Upload failed. Please try again.")).
Proof.
  intro Hfail.
  unfold_handlers. cbn.
  destruct (fetch env _) as [e|resp] eqn:Hfetch; cbn.
  - destruct (String.eqb (name e) "TypeError" &&
              JsString.includes (message e) "fetch") eqn:Hguard; cbn.
    + repeat split; try tauto.
      eexists; split; [reflexivity|]. split; [discriminate|].
      intros e' He'. injection He' as <-.
      apply andb_prop in Hguard as [Hn Hi].
      split.
      * intros _ _. split; reflexivity.
      * intros [Hne|Hni].
        -- apply String.eqb_eq in Hn. contradiction.
        -- congruence.
    + repeat split; try tauto.
      eexists; split; [reflexivity|]. split.
      { apply or_else_nonempty. discriminate. }
      intros e' He'. injection He' as <-.
      split.
      * intros Hn Hi. apply String.eqb_eq in Hn.
        rewrite Hn, Hi in Hguard. discriminate.
      * intros _. split.
        -- apply or_else_truthy.
        -- intros ->. reflexivity.
  - rewrite Hfail. cbn.
    repeat split; try tauto.
    eexists; split; [reflexivity|]. split.
    + apply or_else_nonempty. discriminate.
    + intros e He. discriminate.
Qed.

(* ================================================================== *)
(** ** Edit *)

(** C4 (as amended). When a valid edit submission (non-blank instruction,
    non-empty working content) is answered with status 2xx and a body that
    has the success flag and non-empty modified markup, editHistory gains
    exactly one record at its end; the record's instruction is the submitted
    text verbatim, its timestamp is the client's formatted time, and its
    explanation is the backend's explanation when that is a non-empty
    string, 'Changes applied successfully' when it is absent or empty;
    htmlContent is the returned markup, the instruction input is cleared, no
    error is set and the processing flag is cleared. *)
Theorem edit_success_state
    (api : ApiService) (env : Env) (s : State)
    (resp : Response) (r : JsonBody) (m : string) :
  blank (editInstructions s) = false ->
  htmlContent s <> "" ->
  fetch env (edit_request api s) = Resolved resp ->
  ok resp = true ->
  resp_json resp = inr (Some r) ->
  r_success r = true ->
  r_modifiedHTML r = Some m ->
  m <> "" ->
  exists rec,
    editHistory (final_state (handleAIEdit api env) s) = (editHistory s ++ [rec])%list /\
    length (editHistory (final_state (handleAIEdit api env) s)) =
      S (length (editHistory s)) /\
    instruction rec = editInstructions s /\
    timestamp rec = toLocaleString env /\
    (forall e, r_explanation r = Some e -> e <> "" -> explanation rec = e) /\
    (r_explanation r = None \/ r_explanation r = Some "" ->
       explanation rec = "Changes applied successfully") /\
    htmlContent (final_state (handleAIEdit api env) s) = m /\
    editInstructions (final_state (handleAIEdit api env) s) = "" /\
    error (final_state (handleAIEdit api env) s) = None /\
    isProcessing (final_state (handleAIEdit api env) s) = false.
Proof.
  intros Hb Hh Hfetch Hok Hjson Hsucc Hm Hne.
  assert (Hi : editInstructions s <> "").
  { intros E. rewrite E in Hb. discriminate. }
  apply truthy_true_iff in Hh, Hi, Hne.
  unfold final_state, run, handleAIEdit, usable_markup, bind, get. cbn [st].
  rewrite trim_truthy_blank, Hb, Hh. cbn [negb].
  unfold_handlers. cbn. rewrite Hi, Hh. cbn.
  rewrite Hfetch. cbn. rewrite Hok. cbn. rewrite Hjson. cbn.
  rewrite Hsucc, Hm, Hne. cbn.
  eexists. split; [reflexivity|]. cbn.
  repeat split.
  - rewrite length_app. cbn. lia.
  - intros e He Hnee. rewrite He. cbn. now apply or_else_truthy.
  - intros [He|He]; rewrite He; reflexivity.
Qed.

(* ================================================================== *)
(** ** The service never writes the React state *)

Section KeepsState.

Context {A B : Type}.

Lemma keeps_ret (a : A) : keeps_state (ret a).
Proof. intro w. reflexivity. Qed.

Lemma keeps_throw (e : JsError) : keeps_state (@throw A e).
Proof. intro w. reflexivity. Qed.

Lemma keeps_await (p : JsError + A) : keeps_state (await p).
Proof. destruct p; intro w; reflexivity. Qed.

Lemma keeps_bind (m : M A) (k : A -> M B) :
  keeps_state m -> (forall a, keeps_state (k a)) -> keeps_state (bind m k).
Proof.
  intros Hm Hk w. unfold bind. specialize (Hm w).
  destruct (m w) as [[a|e] w1]; cbn in *.
  - now rewrite Hk.
  - exact Hm.
Qed.

Lemma keeps_try_catch (m : M A) (h : JsError -> M A) :
  keeps_state m -> (forall e, keeps_state (h e)) -> keeps_state (try_catch m h).
Proof.
  intros Hm Hh w. unfold try_catch. specialize (Hm w).
  destruct (m w) as [[a|e] w1]; cbn in *.
  - exact Hm.
  - now rewrite Hh.
Qed.

Lemma keeps_connectivity_catch (msg : string) (e : JsError) :
  keeps_state (@connectivity_catch A msg e).
Proof.
  intro w. unfold connectivity_catch.
  destruct (_ && _); reflexivity.
Qed.

End KeepsState.

Lemma keeps_emit (ev : Event) : keeps_state (emit ev).
Proof. intro w. reflexivity. Qed.

Lemma keeps_dom (env : Env) (op : DomOp) : keeps_state (dom env op).
Proof. intro w. unfold dom. destruct (dom_throws env op); reflexivity. Qed.

Lemma keeps_await_fetch (env : Env) (req : Request) :
  keeps_state (await_fetch env req).
Proof.
  intro w. unfold await_fetch, bind, emit. cbn.
  destruct (fetch env req); reflexivity.
Qed.

Create HintDb service.
#[local] Hint Resolve keeps_ret keeps_throw keeps_await keeps_emit keeps_dom
  keeps_await_fetch keeps_connectivity_catch : service.

Ltac keeps :=
  repeat first
    [ apply keeps_bind; [|intro]
    | apply keeps_try_catch; [|intro]
    | solve [auto with service]
    | match goal with
      | |- keeps_state (if ?b then _ else _) => destruct b
      | |- keeps_state (match ?x with _ => _ end) => destruct x
      end ].

Lemma uploadDocument_keeps_state api env file :
  keeps_state (uploadDocument api env file).
Proof. unfold uploadDocument. keeps. Qed.

Lemma editDocument_keeps_state api env instruction html language documentId :
  keeps_state (editDocument api env instruction html language documentId).
Proof. unfold editDocument. keeps. Qed.

Lemma convertDocument_keeps_state api env html format filename :
  keeps_state (convertDocument api env html format filename).
Proof. unfold convertDocument. keeps. Qed.

Lemma downloadFile_keeps_state env blob filename :
  keeps_state (downloadFile env blob filename).
Proof. unfold downloadFile, console_error. keeps. Qed.

(* ================================================================== *)
(** ** Case analysis on the answers of the outside world *)

Arguments error_message : simpl never.
Arguments JsString.includes : simpl never.
Arguments String.eqb : simpl never.
Arguments JsString.or_else : simpl never.
Arguments JsString.toUpperCase : simpl never.
Arguments export_filename : simpl never.
Arguments format_name : simpl never.
Arguments Nat.eqb : simpl never.
Arguments Nat.ltb : simpl never.

Ltac split_on t := destruct t eqn:?; cbn.

Ltac walk :=
  repeat match goal with
    | |- context [fetch ?env ?req] => split_on (fetch env req)
    | |- context [String.eqb (name ?e) "TypeError" && ?i] =>
        split_on (String.eqb (name e) "TypeError" && i)
    | |- context [negb (ok ?r)] => split_on (ok r)
    | |- context [match resp_blob ?r with _ => _ end] => split_on (resp_blob r)
    | |- context [match resp_json ?r with _ => _ end] => split_on (resp_json r)
    | |- context [(blob_size ?b =? 0)%nat] => split_on (blob_size b =? 0)%nat
    | |- context [(0 <? blob_size ?b)%nat] => split_on (0 <? blob_size b)%nat
    | |- context [createObjectURL ?env ?b] => split_on (createObjectURL env b)
    | |- context [dom_throws ?env ?op] => split_on (dom_throws env op)
    | |- context [match ?o with Some _ => _ | None => _ end] => split_on o
    | |- context [if ?b then _ else _] => split_on b
    end.

Lemma format_name_truthy (format : Format) :
  JsString.truthy (format_name format) = true.
Proof. now destruct format. Qed.

(** The shape shared by the three handlers that perform I/O: set the flag,
    clear the error, run a body that only talks to the service, report what
    it throws, clear the flag. *)
Lemma guarded_call_frame (body : M unit) (label fallback : string) (w : World) :
  keeps_state body ->
  same_but_error_and_processing (st w)
    (st (snd ((setIsProcessing true ;;
               setError None ;;
               try_finally
                 (try_catch body
                    (fun err =>
                       console_error label err ;;
                       setError (Some (JsString.or_else (message err) fallback))))
                 (setIsProcessing false)) w))).
Proof.
  intro Hbody.
  unfold setIsProcessing, setError, console_error, try_finally, try_catch,
    bind, modify, emit. cbn.
  match goal with |- context [body ?w1] => specialize (Hbody w1) end.
  cbn in Hbody.
  destruct (body _) as [[[]|e] w2]; cbn in *; rewrite Hbody; cbn;
    repeat split.
Qed.

(* ================================================================== *)
(** ** Export *)

Lemma export_frame (api : ApiService) (env : Env) (format : Format) (s : State) :
  same_but_error_and_processing s
    (final_state (downloadAsFormat api env format) s).
Proof.
  unfold final_state, run, downloadAsFormat.
  unfold bind at 1. unfold get. cbn [st].
  destruct (JsString.truthy (htmlContent s)); cbn [negb].
  - apply (guarded_call_frame _ _ _ {| st := s; log := [] |}).
    apply keeps_bind; [apply convertDocument_keeps_state|].
    intro blob. destruct (0 <? blob_size blob)%nat.
    + apply downloadFile_keeps_state.
    + apply keeps_throw.
  - repeat split.
Qed.

(** C6. When the conversion is answered with a 2xx status and a binary
    payload of length zero, [convertDocument] fails with 'Received empty file
    from server', the export handler sets that message as the error, clears
    the processing flag, and no step of the local save takes place. *)
Theorem empty_payload_is_failure
    (api : ApiService) (env : Env) (format : Format) (s : State)
    (resp : Response) (b : Blob) :
  htmlContent s <> "" ->
  fetch env (convert_request api s format) = Resolved resp ->
  ok resp = true ->
  resp_blob resp = inr b ->
  blob_size b = 0 ->
  fst (run (convertDocument api env (htmlContent s) (format_name format)
              (Some (export_filename (document s) format))) s) =
    Thrown (new_Error "Received empty file from server") /\
  error (final_state (downloadAsFormat api env format) s) =
    Some "Received empty file from server" /\
  no_save (events (downloadAsFormat api env format) s) /\
  isProcessing (final_state (downloadAsFormat api env format) s) = false.
Proof.
  intros Hh Hfetch Hok Hblob Hsize.
  apply truthy_true_iff in Hh.
  unfold_handlers. cbn.
  rewrite Hh, format_name_truthy. cbn.
  rewrite Hfetch. cbn. rewrite Hok. cbn. rewrite Hblob. cbn.
  rewrite Hsize. cbn.
  repeat split; repeat constructor.
Qed.

(* ================================================================== *)
(** ** Failures do not roll back *)


(* ================================================================== *)
(** ** The processing flag *)

Ltac finish_io :=
  split; [reflexivity|];
  match goal with
  | H : fetch _ ?r = _ |- _ => exists r; rewrite H
  end;
  eexists _, _;
  split; [reflexivity|];
  cbn; repeat split; repeat (constructor; cbn; try (split; reflexivity)).

Lemma upload_io_discipline api env f s :
  io_discipline env (handleFileUpload api env (Some f)) s.
Proof.
  unfold_handlers. cbn.
  walk; finish_io.
Qed.

Lemma edit_io_discipline api env s :
  blank (editInstructions s) = false -> htmlContent s <> "" ->
  io_discipline env (handleAIEdit api env) s.
Proof.
  intros Hb Hh.
  assert (Hi : editInstructions s <> "").
  { intros E. rewrite E in Hb. discriminate. }
  apply truthy_true_iff in Hh, Hi.
  unfold usable_markup. unfold_handlers.
  cbn [st]. rewrite !trim_truthy_blank, !Hb, !Hh, !Hi. cbn.
  walk; finish_io.
Qed.

Lemma export_io_discipline api env format s :
  htmlContent s <> "" ->
  io_discipline env (downloadAsFormat api env format) s.
Proof.
  intros Hh. apply truthy_true_iff in Hh.
  unfold_handlers. cbn. rewrite Hh, format_name_truthy. cbn.
  walk; finish_io.
Qed.

(** C7. Each entry point that performs I/O (an upload of a file, an edit or
    an export that passes validation) returns normally whatever the outside
    world answers; its request goes out, and is settled, in a state where
    the error has been cleared and isProcessing is true; isProcessing is
    still true at every later event of the handler, and it is false when the
    handler is done. *)
Theorem io_entry_points_keep_processing_flag
    (api : ApiService) (env : Env) (f : File) (format : Format) (s : State) :
  io_discipline env (handleFileUpload api env (Some f)) s /\
  (blank (editInstructions s) = false -> htmlContent s <> "" ->
     io_discipline env (handleAIEdit api env) s) /\
  (htmlContent s <> "" ->
     io_discipline env (downloadAsFormat api env format) s).
Proof.
  split; [apply upload_io_discipline|].
  split; [apply edit_io_discipline | apply export_io_discipline].
Qed.

(* ================================================================== *)
(** ** Local save *)

(** Whatever goes wrong while the save is set up, [downloadFile] throws the
    wrapped error. *)
Lemma downloadFile_throws_wrapped (env : Env) (blob : Blob) (filename : string)
    (s : State) (e : JsError) :
  fst (run (downloadFile env blob filename) s) = Thrown e ->
  e = new_Error "Failed to download file".
Proof.
  unfold_handlers. cbn.
  walk; intro H; try discriminate; now injection H.
Qed.

(** When every step of the set-up works, the link is clicked and the
    release of the object URL is scheduled last, 100 ms later. *)
Lemma downloadFile_success_releases (env : Env) (blob : Blob)
    (filename u : string) (s : State) :
  createObjectURL env blob = inr u ->
  (forall op, dom_throws env op = None) ->
  run (downloadFile env blob filename) s =
    (Returned tt,
     {| st := s;
        log := [ (EvCreateObjectURL u, s);
                 (EvAppendLink u (JsString.or_else filename "download"), s);
                 (EvClick u (JsString.or_else filename "download"), s);
                 (EvRemoveLink, s);
                 (EvSetTimeout (RevokeObjectURL u) 100, s) ] |}).
Proof.
  intros Hu Hdom. unfold_handlers. cbn.
  rewrite Hu. cbn. rewrite !Hdom. reflexivity.
Qed.

(** C8. The code at the failing input: the object URL [blob:1] has been
    created and the click on the link throws.  [downloadFile] logs the error
    and throws the wrapped 'Failed to download file', and the release of
    [blob:1] is never scheduled. *)
Theorem downloadFile_click_failure_keeps_object_url :
  run (downloadFile Scenario.world_click_throws {| blob_size := 10 |} "a.pdf")
      initialState =
    (Thrown (new_Error "Failed to download file"),
     {| st := initialState;
        log := [ (EvCreateObjectURL "blob:1", initialState);
                 (EvAppendLink "blob:1" "a.pdf", initialState);
                 (EvConsoleError "Download error:" Scenario.click_error,
                  initialState) ] |}) /\
  existsb (is_release "blob:1")
    (map fst (events (downloadFile Scenario.world_click_throws
                        {| blob_size := 10 |} "a.pdf") initialState)) = false.
Proof.
  split; reflexivity.
Qed.

(* ================================================================== *)
(** ** The theorems at the scenarios *)

Import Scenario.

(** The upload scenario of the specification: a 2 KB text file answered with
    the document [d1] gives step = Preview and htmlContent = "<p>hi</p>". *)
Lemma upload_success_state_witness :
  currentStep
    (final_state
       (handleFileUpload api (world (Resolved (json_response 200 "OK" (upload_body doc))))
          (Some file)) initialState) = StepPreview /\
  htmlContent
    (final_state
       (handleFileUpload api (world (Resolved (json_response 200 "OK" (upload_body doc))))
          (Some file)) initialState) = "<p>hi</p>" /\
  language
    (final_state
       (handleFileUpload api (world (Resolved (json_response 200 "OK" (upload_body doc))))
          (Some file)) initialState) = "en".
Proof.
  destruct (upload_success_state api
              (world (Resolved (json_response 200 "OK" (upload_body doc))))
              file initialState
              (json_response 200 "OK" (upload_body doc)) (upload_body doc) doc)
    as (Hstep & _ & Hhtml & Hlang & _); try reflexivity.
  split; [exact Hstep|]. split; [exact Hhtml|].
  apply Hlang; [reflexivity | discriminate].
Defined.

(** C1 as stated fails when the document's language is the empty string:
    the response has the success flag and a document whose language field is
    there, and the language of the workflow becomes "en", not that field. *)
Lemma upload_empty_language_counterexample :
  fetch (world (Resolved (json_response 200 "OK" (upload_body doc_empty_language))))
    (upload_request api file) =
    Resolved (json_response 200 "OK" (upload_body doc_empty_language)) /\
  ok (json_response 200 "OK" (upload_body doc_empty_language)) = true /\
  r_success (upload_body doc_empty_language) = true /\
  r_document (upload_body doc_empty_language) = Some doc_empty_language /\
  doc_language doc_empty_language = Some "" /\
  language
    (final_state
       (handleFileUpload api
          (world (Resolved (json_response 200 "OK" (upload_body doc_empty_language))))
          (Some file)) initialState) = "en" /\
  language
    (final_state
       (handleFileUpload api
          (world (Resolved (json_response 200 "OK" (upload_body doc_empty_language))))
          (Some file)) initialState) <>
    field_or_default (doc_language doc_empty_language) "en".
Proof.
  repeat split; discriminate.
Qed.

(** A status 500 with an error body, and the server-down scenario of the
    specification: the step stays Upload, no document appears, and the error
    is the backend's text in the first case, the connectivity message in the
    second. *)
Lemma upload_failure_state_witness :
  (currentStep
     (final_state
        (handleFileUpload api
           (world (Resolved (json_response 500 "Internal Server Error"
                               (error_body "Unsupported file type"))))
           (Some file)) initialState) = StepUpload /\
   document
     (final_state
        (handleFileUpload api
           (world (Resolved (json_response 500 "Internal Server Error"
                               (error_body "Unsupported file type"))))
           (Some file)) initialState) = None) /\
  exists msg,
    error (final_state (handleFileUpload api (world (Rejected failed_to_fetch))
                          (Some file)) initialState) = Some msg /\
    JsString.includes msg "check if the backend is running" = true.
Proof.
  split.
  - destruct (upload_failure_state api
                (world (Resolved (json_response 500 "Internal Server Error"
                                    (error_body "Unsupported file type"))))
                file initialState) as (_ & _ & Hstay & _); [reflexivity|].
    apply Hstay; reflexivity.
  - destruct (upload_failure_state api (world (Rejected failed_to_fetch))
                file initialState) as (_ & _ & _ & _ & msg & Hmsg & _ & Hkind);
      [exact I|].
    exists msg. split; [exact Hmsg|].
    destruct (Hkind failed_to_fetch eq_refl) as [Hconn _].
    apply Hconn; reflexivity.
Defined.

(** C2. The code at the failing input: the server is down and the browser
    rejects [fetch] with the TypeError 'Load failed'.  The outer [catch] of
    [uploadDocument], which is there to turn a failed connection into the
    connectivity message, tests the message for "fetch" and lets this
    rejection through; the error shown is 'Load failed', without the hint
    to check if the backend is running. *)
Lemma upload_load_failed_shows_raw_message :
  fetch (world (Rejected load_failed)) (upload_request api file) =
    Rejected load_failed /\
  name load_failed = "TypeError" /\
  error (final_state (handleFileUpload api (world (Rejected load_failed))
                        (Some file)) initialState) = Some "Load failed" /\
  JsString.includes "Load failed" "check if the backend is running" = false /\
  error (final_state (handleFileUpload api (world (Rejected load_failed))
                        (Some file)) initialState) <>
    Some "Unable to connect to server. Please check if the backend is running.".
Proof.
  repeat split; discriminate.
Qed.

(** The edit scenario of the specification: "make title bold" answered with
    the bolded markup and the explanation "Bolded title". *)
Lemma edit_success_state_witness :
  htmlContent
    (final_state
       (handleAIEdit api
          (world (Resolved (json_response 200 "OK" (edit_body (Some "Bolded title"))))))
       editing) = "<h1><b>Hi</b></h1>" /\
  exists rec,
    editHistory
      (final_state
         (handleAIEdit api
            (world (Resolved (json_response 200 "OK" (edit_body (Some "Bolded title"))))))
         editing) = [rec] /\
    instruction rec = "make title bold" /\
    explanation rec = "Bolded title".
Proof.
  destruct (edit_success_state api
              (world (Resolved (json_response 200 "OK" (edit_body (Some "Bolded title")))))
              editing
              (json_response 200 "OK" (edit_body (Some "Bolded title")))
              (edit_body (Some "Bolded title")) "<h1><b>Hi</b></h1>")
    as (rec & Hhist & _ & Hins & _ & Hexp & _ & Hhtml & _);
    try reflexivity; try discriminate.
  split; [exact Hhtml|].
  exists rec. split; [exact Hhist|]. split; [exact Hins|].
  apply Hexp; [reflexivity | discriminate].
Defined.

(** C4 as stated fails when the backend's explanation is the empty string:
    the explanation is there, and the record holds the fallback text. *)
Lemma edit_empty_explanation_counterexample :
  blank (editInstructions editing) = false /\
  htmlContent editing <> "" /\
  fetch (world (Resolved (json_response 200 "OK" (edit_body (Some "")))))
    (edit_request api editing) =
    Resolved (json_response 200 "OK" (edit_body (Some ""))) /\
  ok (json_response 200 "OK" (edit_body (Some ""))) = true /\
  r_success (edit_body (Some "")) = true /\
  r_modifiedHTML (edit_body (Some "")) = Some "<h1><b>Hi</b></h1>" /\
  r_explanation (edit_body (Some "")) = Some "" /\
  map explanation
    (editHistory
       (final_state
          (handleAIEdit api
             (world (Resolved (json_response 200 "OK" (edit_body (Some ""))))))
          editing)) = ["Changes applied successfully"] /\
  map explanation
    (editHistory
       (final_state
          (handleAIEdit api
             (world (Resolved (json_response 200 "OK" (edit_body (Some ""))))))
          editing)) <>
    [field_or_default (r_explanation (edit_body (Some "")))
       "Changes applied successfully"].
Proof.
  repeat split; discriminate.
Qed.

(** A white-space instruction, and an export before any upload. *)
Lemma invalid_submission_witness :
  events (handleAIEdit api (world (Rejected failed_to_fetch))) blank_input = [] /\
  error (final_state (downloadAsFormat api (world (Rejected failed_to_fetch)) FmtPdf)
           initialState) = Some "No document content to download".
Proof.
  split.
  - destruct (invalid_submission_sets_error_without_io api
                (world (Rejected failed_to_fetch)) FmtPdf blank_input)
      as [Hedit _].
    apply Hedit. left. reflexivity.
  - destruct (invalid_submission_sets_error_without_io api
                (world (Rejected failed_to_fetch)) FmtPdf initialState)
      as [_ Hexport].
    apply Hexport. reflexivity.
Defined.

(** The scenario of the specification: status 200 with a payload of length
    zero. *)
Lemma empty_payload_is_failure_witness :
  error (final_state (downloadAsFormat api (world (Resolved (binary_response 0))) FmtPdf)
           editing) = Some "Received empty file from server" /\
  no_save (events (downloadAsFormat api (world (Resolved (binary_response 0))) FmtPdf)
             editing).
Proof.
  destruct (empty_payload_is_failure api (world (Resolved (binary_response 0)))
              FmtPdf editing (binary_response 0) {| blob_size := 0 |})
    as (_ & Herr & Hsave & _); try reflexivity; try discriminate.
  split; [exact Herr | exact Hsave].
Defined.

(** An edit and an export in the editing session, the server being down. *)
Lemma io_entry_points_witness :
  io_discipline (world (Rejected failed_to_fetch))
    (handleAIEdit api (world (Rejected failed_to_fetch))) editing /\
  io_discipline (world (Rejected failed_to_fetch))
    (downloadAsFormat api (world (Rejected failed_to_fetch)) FmtPdf) editing.
Proof.
  destruct (io_entry_points_keep_processing_flag api
              (world (Rejected failed_to_fetch)) file FmtPdf editing)
    as (_ & Hedit & Hexport).
  split.
  - apply Hedit; [reflexivity | discriminate].
  - apply Hexport. discriminate.
Defined.


(* ================================================================== *)
(** ** The name of an exported file *)

Lemma count_dots_app (a b : string) :
  count_dots (a ++ b) = count_dots a + count_dots b.
Proof.
  induction a as [|c r IH]; simpl; [reflexivity|].
  rewrite IH. lia.
Qed.

Lemma before_dot_no_dot (s : string) : count_dots (JsString.before_dot s) = 0.
Proof.
  induction s as [|c r IH]; simpl; [reflexivity|].
  destruct (Ascii.eqb c "."%char) eqn:Hc; simpl; [reflexivity|].
  rewrite Hc. exact IH.
Qed.

Lemma before_dot_prefix (s : string) :
  String.prefix (JsString.before_dot s) s = true.
Proof.
  induction s as [|c r IH]; simpl; [reflexivity|].
  destruct (Ascii.eqb c "."%char); simpl; [reflexivity|].
  destruct (ascii_dec c c) as [_|Hne]; [exact IH | contradiction].
Qed.

Lemma format_name_no_dot (format : Format) : count_dots (format_name format) = 0.
Proof. destruct format; reflexivity. Qed.

(** The stem of an export file name. *)
Lemma export_stem (doc : option Document) (format : Format) :
  exists stem,
    export_filename doc format = (stem ++ "." ++ format_name format)%string /\
    stem <> "" /\
    count_dots stem = 0 /\
    (stem = "document" \/
     exists d n, doc = Some d /\ originalName d = Some n /\
                 stem = JsString.before_dot n).
Proof.
  unfold export_filename.
  destruct doc as [d|]; [destruct (originalName d) as [n|] eqn:Hn|]; cbn.
  - destruct (JsString.before_dot n) as [|c r] eqn:Hb.
    + exists "document". repeat split; [discriminate | now left].
    + exists (String c r). split; [reflexivity|]. split; [discriminate|].
      split; [rewrite <- Hb; apply before_dot_no_dot|].
      right. exists d, n. now rewrite Hb.
  - exists "document". repeat split; [discriminate | now left].
  - exists "document". repeat split; [discriminate | now left].
Qed.

Lemma before_dot_splits (n : string) :
  exists rest,
    n = (JsString.before_dot n ++ rest)%string /\
    (rest = "" \/ exists r, rest = String "."%char r).
Proof.
  induction n as [|c r IH]; simpl.
  - exists "". split; [reflexivity | now left].
  - destruct (Ascii.eqb c "."%char) eqn:Hc.
    + apply Ascii.eqb_eq in Hc. subst c.
      exists (String "."%char r). split; [reflexivity|]. right. now exists r.
    + destruct IH as (rest & Hn & Hrest).
      exists rest. split; [|exact Hrest]. simpl. now rewrite <- Hn.
Qed.

(** X1. The file name of an export has exactly one dot, the one before the
    format.  When the document has an original name, that name splits into
    a stem without dots and a rest that is empty or starts with a dot (the
    stem is the name up to its first dot), and the file name is the stem,
    or the word "document" when the stem is empty, then a dot and the
    format.  When there is no document or no original name, the file name
    is "document", a dot and the format. *)
Theorem export_filename_has_one_dot (doc : option Document) (format : Format) :
  count_dots (export_filename doc format) = 1 /\
  (forall d n, doc = Some d -> originalName d = Some n ->
     exists stem rest,
       n = (stem ++ rest)%string /\
       count_dots stem = 0 /\
       (rest = "" \/ exists r, rest = String "."%char r) /\
       (stem <> "" ->
          export_filename doc format = (stem ++ "." ++ format_name format)%string) /\
       (stem = "" ->
          export_filename doc format = ("document." ++ format_name format)%string)) /\
  (doc = None \/ (exists d, doc = Some d /\ originalName d = None) ->
     export_filename doc format = ("document." ++ format_name format)%string).
Proof.
  split; [|split].
  - destruct (export_stem doc format) as (stem & Hname & _ & Hdots & _).
    rewrite Hname, !count_dots_app, Hdots, format_name_no_dot. reflexivity.
  - intros d n -> Hn.
    destruct (before_dot_splits n) as (rest & Hsplit & Hrest).
    exists (JsString.before_dot n), rest.
    split; [exact Hsplit|]. split; [apply before_dot_no_dot|].
    split; [exact Hrest|].
    unfold export_filename. rewrite Hn. cbn.
    split; intro Hstem.
    + now rewrite or_else_truthy.
    + rewrite Hstem. reflexivity.
  - intros [->|(d & -> & Hn)]; unfold export_filename; [|rewrite Hn]; reflexivity.
Qed.

Lemma export_filename_truthy (doc : option Document) (format : Format) :
  JsString.or_else (export_filename doc format) "download" =
    export_filename doc format.
Proof.
  destruct (export_stem doc format) as (stem & Hname & Hne & _).
  apply or_else_truthy. rewrite Hname. now apply append_nonempty_l.
Qed.

(* ================================================================== *)
(** ** The history box *)

Lemma slice_last_length {A} (n : nat) (l : list A) :
  length (slice_last n l) = Nat.min n (length l).
Proof.
  unfold slice_last. rewrite length_skipn. lia.
Qed.

Lemma slice_last_suffix {A} (n : nat) (l : list A) :
  firstn (length l - n) l ++ slice_last n l = l.
Proof.
  unfold slice_last. apply firstn_skipn.
Qed.

(** X2. The history box lists the last five records in their order: the
    whole history is some hidden older records followed by the listed ones,
    the listed ones are min(5, length) many, and the note 'Showing last 5
    edits' is shown exactly when a record is hidden. *)
Theorem visible_history_is_last_five (s : State) :
  length (visible_history s) = Nat.min 5 (length (editHistory s)) /\
  (exists hidden,
     editHistory s = hidden ++ visible_history s /\
     length hidden = length (editHistory s) - 5 /\
     (truncation_note s = true <-> hidden <> [])) /\
  (truncation_note s = false <-> visible_history s = editHistory s).
Proof.
  unfold visible_history, truncation_note.
  split; [apply slice_last_length|].
  assert (Hlen : length (firstn (length (editHistory s) - 5) (editHistory s)) =
                 length (editHistory s) - 5).
  { rewrite length_firstn. lia. }
  split.
  - exists (firstn (length (editHistory s) - 5) (editHistory s)).
    split; [symmetry; apply slice_last_suffix|].
    split; [exact Hlen|].
    rewrite Nat.ltb_lt. split.
    + intros Hlt Hnil. rewrite Hnil in Hlen. simpl in Hlen. lia.
    + intros Hne.
      destruct (firstn (length (editHistory s) - 5) (editHistory s));
        [contradiction | simpl in Hlen; lia].
  - rewrite Nat.ltb_ge. split.
    + intros Hle. unfold slice_last.
      replace (length (editHistory s) - 5) with 0 by lia. reflexivity.
    + intros Heq.
      pose proof (slice_last_length 5 (editHistory s)) as Hl.
      rewrite Heq in Hl. lia.
Qed.

(* ================================================================== *)
(** ** What the user is told when the backend refuses *)

Lemma error_message_spec (resp : Response) (fallback : string) :
  failure_message resp fallback (error_message resp fallback).
Proof.
  unfold failure_message, error_message.
  destruct (resp_json resp) as [e|[b|]].
  - split; [|split]; try (intros; discriminate). reflexivity.
  - split; [|split].
    + intros b' t Hb Ht Hne. injection Hb as <-. rewrite Ht. cbn.
      now apply or_else_truthy.
    + intros b' Hb [Ht|Ht]; injection Hb as <-; rewrite Ht; reflexivity.
    + intros [H|[e H]]; discriminate.
  - split; [|split]; try (intros; discriminate). reflexivity.
Qed.

Lemma shown_error_message (resp : Response) (fallback generic : string) :
  fallback <> "" ->
  JsString.or_else (error_message resp fallback) generic =
    error_message resp fallback.
Proof.
  intro Hf. apply or_else_truthy. now apply error_message_nonempty.
Qed.

(** [new Error(...)] is no TypeError: the outer [catch] of a remote method
    rethrows it. *)
Lemma Error_is_no_TypeError : String.eqb "Error" "TypeError" = false.
Proof. reflexivity. Qed.

Ltac rethrown := rewrite ?Error_is_no_TypeError; cbn.

Ltac valid_edit Hb Hh :=
  let Hi := fresh "Hi" in
  match type of Hb with
  | blank (editInstructions ?s) = false =>
      assert (Hi : editInstructions s <> "")
        by (let E := fresh in intros E; rewrite E in Hb; discriminate)
  end;
  apply truthy_true_iff in Hh, Hi;
  unfold usable_markup; unfold_handlers; cbn [st];
  rewrite !trim_truthy_blank, !Hb, !Hh, !Hi; cbn.

(** X3. When the backend answers an upload, an edit or a conversion with a
    status that is not 2xx, the error shown is the backend's own [error]
    text when the body is a JSON object with a non-empty one; the text
    'Upload failed', 'Edit failed' or 'Conversion failed' when the object
    has none; and the status line "HTTP <status>: <statusText>" when the
    body is not JSON or is [null]. *)
Theorem failure_status_is_reported
    (api : ApiService) (env : Env) (f : File) (format : Format) (s : State) :
  (forall resp,
     fetch env (upload_request api f) = Resolved resp -> ok resp = false ->
     exists msg,
       error (final_state (handleFileUpload api env (Some f)) s) = Some msg /\
       failure_message resp "Upload failed" msg) /\
  (forall resp,
     blank (editInstructions s) = false -> htmlContent s <> "" ->
     fetch env (edit_request api s) = Resolved resp -> ok resp = false ->
     exists msg,
       error (final_state (handleAIEdit api env) s) = Some msg /\
       failure_message resp "Edit failed" msg) /\
  (forall resp,
     htmlContent s <> "" ->
     fetch env (convert_request api s format) = Resolved resp -> ok resp = false ->
     exists msg,
       error (final_state (downloadAsFormat api env format) s) = Some msg /\
       failure_message resp "Conversion failed" msg).
Proof.
  split; [|split].
  - intros resp Hfetch Hok.
    exists (error_message resp "Upload failed").
    split; [|apply error_message_spec].
    unfold_handlers. cbn. rewrite Hfetch. cbn. rewrite Hok. cbn. rethrown.
    rewrite shown_error_message by discriminate. reflexivity.
  - intros resp Hb Hh Hfetch Hok.
    exists (error_message resp "Edit failed").
    split; [|apply error_message_spec].
    valid_edit Hb Hh. rewrite Hfetch. cbn. rewrite Hok. cbn. rethrown.
    rewrite shown_error_message by discriminate. reflexivity.
  - intros resp Hh Hfetch Hok.
    exists (error_message resp "Conversion failed").
    split; [|apply error_message_spec].
    apply truthy_true_iff in Hh.
    unfold_handlers. cbn. rewrite Hh, format_name_truthy. cbn.
    rewrite Hfetch. cbn. rewrite Hok. cbn. rethrown.
    rewrite shown_error_message by discriminate. reflexivity.
Qed.

Lemma includes_fetch_nonempty (m : string) :
  JsString.includes m "fetch" = true -> m <> "".
Proof. intros H E. rewrite E in H. discriminate. Qed.

(** X4. A 2xx answer whose body cannot be read, the read failing with a
    TypeError that mentions "fetch": the upload and the export show their
    connectivity messages, because they await the body inside the [try];
    the edit, which returns the promise of [response.json()] without
    awaiting it there, shows the TypeError's own message instead. *)
Theorem unreadable_body_is_reported_differently
    (api : ApiService) (env : Env) (f : File) (format : Format) (s : State)
    (resp : Response) (e : JsError) :
  ok resp = true ->
  name e = "TypeError" ->
  JsString.includes (message e) "fetch" = true ->
  (fetch env (upload_request api f) = Resolved resp ->
   resp_json resp = inl e ->
   error (final_state (handleFileUpload api env (Some f)) s) =
     Some "Unable to connect to server. Please check if the backend is running.") /\
  (blank (editInstructions s) = false -> htmlContent s <> "" ->
   fetch env (edit_request api s) = Resolved resp ->
   resp_json resp = inl e ->
   error (final_state (handleAIEdit api env) s) = Some (message e)) /\
  (htmlContent s <> "" ->
   fetch env (convert_request api s format) = Resolved resp ->
   resp_blob resp = inl e ->
   error (final_state (downloadAsFormat api env format) s) =
     Some "Unable to connect to server for conversion. Please check if the backend is running.").
Proof.
  intros Hok Hname Hinc.
  split; [|split].
  - intros Hfetch Hjson.
    unfold_handlers. cbn. rewrite Hfetch. cbn. rewrite Hok. cbn.
    rewrite Hjson. cbn. rewrite Hname, Hinc. reflexivity.
  - intros Hb Hh Hfetch Hjson.
    valid_edit Hb Hh. rewrite Hfetch. cbn. rewrite Hok. cbn.
    rewrite Hjson. cbn.
    rewrite or_else_truthy by now apply includes_fetch_nonempty.
    reflexivity.
  - intros Hh Hfetch Hblob.
    apply truthy_true_iff in Hh.
    unfold_handlers. cbn. rewrite Hh, format_name_truthy. cbn.
    rewrite Hfetch. cbn. rewrite Hok. cbn.
    rewrite Hblob. cbn. rewrite Hname, Hinc. reflexivity.
Qed.

(** X5. A 2xx answer to an upload that is [null], lacks the success flag or
    lacks the document is refused with 'Invalid response from server',
    whatever [error] text the body carries; nothing but the error and the
    processing flag changes, and the flag ends cleared. *)
Theorem upload_invalid_response
    (api : ApiService) (env : Env) (f : File) (s : State)
    (resp : Response) (b : option JsonBody) :
  fetch env (upload_request api f) = Resolved resp ->
  ok resp = true ->
  resp_json resp = inr b ->
  match b with
  | None => True
  | Some r => r_success r = false \/ r_document r = None
  end ->
  error (final_state (handleFileUpload api env (Some f)) s) =
    Some "Invalid response from server" /\
  same_but_error_and_processing s
    (final_state (handleFileUpload api env (Some f)) s) /\
  isProcessing (final_state (handleFileUpload api env (Some f)) s) = false.
Proof.
  intros Hfetch Hok Hjson Hbad.
  unfold_handlers. cbn. rewrite Hfetch. cbn. rewrite Hok. cbn.
  rewrite Hjson. cbn.
  destruct b as [r|]; cbn.
  - destruct Hbad as [H|H]; rewrite H; [|destruct (r_success r)];
      cbn; repeat split.
  - repeat split.
Qed.

(** The state after an edit that the backend answered with 2xx but did not
    carry out. *)
Lemma edit_refused_run (api : ApiService) (env : Env) (s : State)
    (resp : Response) (b : option JsonBody) :
  blank (editInstructions s) = false ->
  htmlContent s <> "" ->
  fetch env (edit_request api s) = Resolved resp ->
  ok resp = true ->
  resp_json resp = inr b ->
  match b with
  | None => True
  | Some r => r_success r = false \/ usable_markup r = None
  end ->
  final_state (handleAIEdit api env) s =
    {| currentStep := currentStep s; document := document s;
       htmlContent := htmlContent s; isProcessing := false;
       editInstructions := editInstructions s;
       editHistory := editHistory s; previewMode := previewMode s;
       error := Some (match b with
                      | Some r => JsString.opt_or (r_error r) "Edit failed"
                      | None => "Edit failed"
                      end);
       language := language s |}.
Proof.
  intros Hb Hh Hfetch Hok Hjson Hbad.
  assert (Hi : editInstructions s <> "").
  { intros E. rewrite E in Hb. discriminate. }
  apply truthy_true_iff in Hh, Hi.
  unfold_handlers. cbn [st].
  rewrite !trim_truthy_blank, !Hb, !Hh, !Hi. cbn.
  rewrite Hfetch. cbn. rewrite Hok. cbn. rewrite Hjson. cbn.
  destruct b as [r|]; cbn; [|reflexivity].
  assert (Hm : JsString.or_else (JsString.opt_or (r_error r) "Edit failed")
                 "Failed to process edit instruction. Please try again." =
               JsString.opt_or (r_error r) "Edit failed").
  { apply or_else_truthy. apply opt_or_nonempty. discriminate. }
  destruct Hbad as [H|H]; rewrite H; [|destruct (r_success r)]; cbn;
    rewrite Hm; reflexivity.
Qed.

(** X6. A 2xx answer to an edit that is [null], lacks the success flag or
    has no modified markup (or an empty one) is a failed edit: the error
    shown is the body's [error] text when it has a non-empty one and 'Edit
    failed' otherwise, and the instruction stays in the input. *)
Theorem edit_unsuccessful_response
    (api : ApiService) (env : Env) (s : State)
    (resp : Response) (b : option JsonBody) :
  blank (editInstructions s) = false ->
  htmlContent s <> "" ->
  fetch env (edit_request api s) = Resolved resp ->
  ok resp = true ->
  resp_json resp = inr b ->
  match b with
  | None => True
  | Some r => r_success r = false \/ r_modifiedHTML r = None \/
              r_modifiedHTML r = Some ""
  end ->
  (forall r t, b = Some r -> r_error r = Some t -> t <> "" ->
     error (final_state (handleAIEdit api env) s) = Some t) /\
  (b = None \/ (exists r, b = Some r /\ (r_error r = None \/ r_error r = Some "")) ->
     error (final_state (handleAIEdit api env) s) = Some "Edit failed") /\
  editInstructions (final_state (handleAIEdit api env) s) = editInstructions s /\
  htmlContent (final_state (handleAIEdit api env) s) = htmlContent s /\
  editHistory (final_state (handleAIEdit api env) s) = editHistory s.
Proof.
  intros Hb Hh Hfetch Hok Hjson Hbad.
  rewrite (edit_refused_run api env s resp b Hb Hh Hfetch Hok Hjson).
  - cbn. repeat split.
    + intros r t -> Ht Hne. rewrite Ht. cbn. now rewrite or_else_truthy.
    + intros [->|(r & -> & [Ht|Ht])]; try rewrite Ht; reflexivity.
  - destruct b as [r|]; [|exact I].
    unfold usable_markup.
    destruct Hbad as [H|[H|H]]; [now left | right; now rewrite H ..].
Qed.

(* ================================================================== *)
(** ** The server cannot be reached *)

(** X7. When the [fetch] of an edit or of a conversion is rejected with a
    TypeError whose message contains "fetch", the error shown is the
    connectivity message of that operation ("... for editing ...", "... for
    conversion ..."), which tells the user to check if the backend is
    running. *)
Theorem unreachable_server_is_reported
    (api : ApiService) (env : Env) (format : Format) (s : State) (e : JsError) :
  name e = "TypeError" ->
  JsString.includes (message e) "fetch" = true ->
  (blank (editInstructions s) = false -> htmlContent s <> "" ->
   fetch env (edit_request api s) = Rejected e ->
   exists msg,
     error (final_state (handleAIEdit api env) s) = Some msg /\
     msg = "Unable to connect to server for editing. Please check if the backend is running." /\
     JsString.includes msg "check if the backend is running" = true) /\
  (htmlContent s <> "" ->
   fetch env (convert_request api s format) = Rejected e ->
   exists msg,
     error (final_state (downloadAsFormat api env format) s) = Some msg /\
     msg = "Unable to connect to server for conversion. Please check if the backend is running." /\
     JsString.includes msg "check if the backend is running" = true).
Proof.
  intros Hname Hinc. split.
  - intros Hb Hh Hfetch.
    eexists. split; [|split; reflexivity].
    valid_edit Hb Hh. rewrite Hfetch. cbn. rewrite Hname, Hinc. reflexivity.
  - intros Hh Hfetch.
    eexists. split; [|split; reflexivity].
    apply truthy_true_iff in Hh.
    unfold_handlers. cbn. rewrite Hh, format_name_truthy. cbn.
    rewrite Hfetch. cbn. rewrite Hname, Hinc. reflexivity.
Qed.

(* ================================================================== *)
(** ** Export *)

Lemma ltb_0_of_nonzero (n : nat) :
  n <> 0 -> (0 <? n)%nat = true /\ (n =? 0)%nat = false.
Proof.
  intro H. split; [apply Nat.ltb_lt; lia | now apply Nat.eqb_neq].
Qed.

(** X8. An export that goes well: the conversion request carries the
    working content, the format and the derived file name; the payload is
    saved once under that file name; the release of the object URL is
    scheduled 100 ms later; no error is shown and, but for the error being
    cleared, the state is as before. *)
Theorem export_success_saves_file
    (api : ApiService) (env : Env) (format : Format) (s : State)
    (resp : Response) (b : Blob) (u : string) :
  htmlContent s <> "" ->
  fetch env (convert_request api s format) = Resolved resp ->
  ok resp = true ->
  resp_blob resp = inr b ->
  blob_size b <> 0 ->
  createObjectURL env b = inr u ->
  (forall op, dom_throws env op = None) ->
  fst (run (downloadAsFormat api env format) s) = Returned tt /\
  trace (events (downloadAsFormat api env format) s) =
    [ EvFetch {| url := baseURL api ++ "/conversion/convert";
                 body := ConvertJson (htmlContent s) (format_name format)
                           (Some (export_filename (document s) format)) |};
      EvSettled (Resolved resp);
      EvCreateObjectURL u;
      EvAppendLink u (export_filename (document s) format);
      EvClick u (export_filename (document s) format);
      EvRemoveLink;
      EvSetTimeout (RevokeObjectURL u) 100 ] /\
  error (final_state (downloadAsFormat api env format) s) = None /\
  isProcessing (final_state (downloadAsFormat api env format) s) = false /\
  same_but_error_and_processing s
    (final_state (downloadAsFormat api env format) s).
Proof.
  intros Hh Hfetch Hok Hblob Hsize Hurl Hdom.
  split; [|split; [|split; [|split; [|apply export_frame]]]];
    apply truthy_true_iff in Hh;
    destruct (ltb_0_of_nonzero _ Hsize) as [Hlt Heq];
    unfold trace; unfold_handlers; cbn;
    rewrite Hh, format_name_truthy; cbn;
    rewrite Hfetch; cbn; rewrite Hok; cbn; rewrite Hblob; cbn;
    rewrite Heq; cbn; rewrite Hlt; cbn; rewrite Hurl; cbn;
    rewrite !Hdom; cbn; rewrite ?export_filename_truthy; reflexivity.
Qed.

(** X9. When the conversion delivered a payload but the save cannot be set
    up (the object URL cannot be created, or a step on the download link
    throws), the error shown is 'Failed to download file', never the text
    of what was thrown, and the processing flag is cleared. *)
Theorem export_save_failure_is_wrapped
    (api : ApiService) (env : Env) (format : Format) (s : State)
    (resp : Response) (b : Blob) :
  htmlContent s <> "" ->
  fetch env (convert_request api s format) = Resolved resp ->
  ok resp = true ->
  resp_blob resp = inr b ->
  blob_size b <> 0 ->
  (exists e, createObjectURL env b = inl e) \/
  (exists op e, dom_throws env op = Some e) ->
  fst (run (downloadAsFormat api env format) s) = Returned tt /\
  error (final_state (downloadAsFormat api env format) s) =
    Some "Failed to download file" /\
  isProcessing (final_state (downloadAsFormat api env format) s) = false.
Proof.
  intros Hh Hfetch Hok Hblob Hsize Hfail.
  apply truthy_true_iff in Hh.
  destruct (ltb_0_of_nonzero _ Hsize) as [Hlt Heq].
  unfold_handlers. cbn.
  rewrite Hh, format_name_truthy. cbn.
  rewrite Hfetch. cbn. rewrite Hok. cbn. rewrite Hblob. cbn.
  rewrite Heq. cbn. rewrite Hlt. cbn.
  destruct (createObjectURL env b) as [e0|u] eqn:Hurl; cbn.
  - repeat split.
  - destruct Hfail as [[e He]|(op & e & Hop)]; [discriminate|].
    destruct (dom_throws env CreateElement) eqn:H1; cbn; [repeat split|].
    destruct (dom_throws env AppendChild) eqn:H2; cbn; [repeat split|].
    destruct (dom_throws env Click) eqn:H3; cbn; [repeat split|].
    destruct (dom_throws env RemoveChild) eqn:H4; cbn; [repeat split|].
    destruct (dom_throws env SetTimeout) eqn:H5; cbn; [repeat split|].
    destruct op; congruence.
Qed.

(** X10. A file is saved only when the conversion was answered with a 2xx
    status and a payload that is not empty: if the click on the download
    link happens, then the working content was not empty and the response
    was such a one. *)
Theorem save_only_after_payload
    (api : ApiService) (env : Env) (format : Format) (s : State) :
  existsb (fun ev => match ev with EvClick _ _ => true | _ => false end)
    (trace (events (downloadAsFormat api env format) s)) = true ->
  htmlContent s <> "" /\
  exists resp b,
    fetch env (convert_request api s format) = Resolved resp /\
    ok resp = true /\
    resp_blob resp = inr b /\
    0 < blob_size b.
Proof.
  unfold trace. unfold_handlers. cbn.
  destruct (JsString.truthy (htmlContent s)) eqn:Hh; cbn; [|discriminate].
  rewrite format_name_truthy. cbn.
  intro Hclick. split; [now apply truthy_true_iff|].
  revert Hclick.
  destruct (fetch env _) as [e|resp] eqn:Hfetch; cbn.
  { destruct (_ && _); cbn; discriminate. }
  destruct (ok resp) eqn:Hok; cbn.
  2:{ destruct (_ && _); cbn; discriminate. }
  destruct (resp_blob resp) as [e|b] eqn:Hblob; cbn.
  { destruct (_ && _); cbn; discriminate. }
  destruct (blob_size b =? 0)%nat eqn:Heq; cbn.
  { destruct (_ && _); cbn; discriminate. }
  intros _. exists resp, b. repeat split; try assumption.
  apply Nat.eqb_neq in Heq. lia.
Qed.

(* ================================================================== *)
(** ** Sessions *)

Lemma shown_error_nonempty (a d msg : string) :
  d <> "" -> Some (JsString.or_else a d) = Some msg -> msg <> "".
Proof.
  intros Hd H. injection H as <-. now apply or_else_nonempty.
Qed.

Ltac rest_leaf :=
  repeat split; cbn in *; intros;
  try congruence;
  try (eapply shown_error_nonempty; [|eassumption]; discriminate);
  try (apply opt_or_nonempty; discriminate);
  try tauto;
  try solve [eauto].

Lemma reset_run (s : State) :
  final_state resetDocument s =
    {| currentStep := StepUpload; document := None;
       htmlContent := ""; isProcessing := isProcessing s;
       editInstructions := ""; editHistory := [];
       previewMode := previewMode s; error := None;
       language := "en" |}.
Proof. reflexivity. Qed.

Lemma initial_at_rest : at_rest initialState.
Proof.
  unfold at_rest. cbn. repeat split; try congruence; try discriminate.
  constructor.
Qed.

Lemma upload_keeps_at_rest (api : ApiService) (env : Env) (f : File) (s : State) :
  at_rest s -> currentStep s = StepUpload ->
  at_rest (final_state (handleFileUpload api env (Some f)) s).
Proof.
  intros (Hp & Hfresh & Hdoc & Herr & Hlang & Hhist) Hstep.
  destruct (Hfresh Hstep) as (Hd & Hh & Hhi & Hl & Hi).
  unfold at_rest. unfold_handlers. cbn.
  walk; rest_leaf.
Qed.

Lemma edit_keeps_at_rest (api : ApiService) (env : Env) (s : State) :
  at_rest s -> currentStep s = StepEdit ->
  blank (editInstructions s) = false ->
  at_rest (final_state (handleAIEdit api env) s).
Proof.
  intros (Hp & Hfresh & Hdoc & Herr & Hlang & Hhist) Hstep Hb.
  assert (Hd : document s <> None) by (apply Hdoc; congruence).
  unfold at_rest, usable_markup. unfold_handlers. cbn [st].
  rewrite !trim_truthy_blank, !Hb. cbn.
  destruct (JsString.truthy (htmlContent s)) eqn:Hh; cbn;
    [|rewrite Hstep; rest_leaf; discriminate || idtac].
  assert (Hi : JsString.truthy (editInstructions s) = true).
  { destruct (editInstructions s); [discriminate | reflexivity]. }
  rewrite !Hi. cbn.
  walk; rewrite ?Hstep; rest_leaf; try discriminate.
  apply Forall_app. split; [assumption|].
  constructor; [|constructor]. cbn. split; [assumption|].
  apply opt_or_nonempty. discriminate.
Qed.

Lemma export_keeps_at_rest (api : ApiService) (env : Env) (format : Format)
    (s : State) :
  at_rest s -> at_rest (final_state (downloadAsFormat api env format) s).
Proof.
  intros (Hp & Hfresh & Hdoc & Herr & Hlang & Hhist).
  unfold at_rest. unfold_handlers. cbn.
  destruct (JsString.truthy (htmlContent s)) eqn:Hh; cbn; [|rest_leaf; discriminate || idtac].
  rewrite format_name_truthy. cbn.
  walk; rest_leaf.
Qed.

Lemma panel_steps (s : State) :
  (upload_panel s = true <-> currentStep s = StepUpload) /\
  (preview_panel s = true -> currentStep s = StepPreview /\ document s <> None) /\
  (edit_panel s = true <-> currentStep s = StepEdit).
Proof.
  unfold upload_panel, preview_panel, edit_panel.
  destruct (currentStep s), (document s); repeat split;
    intros; congruence.
Qed.

(** Every action the page offers takes a state at rest to a state at
    rest. *)
Lemma perform_keeps_at_rest (api : ApiService) (env : Env) (a : Action)
    (s : State) :
  at_rest s -> enabled s a = true ->
  at_rest (final_state (perform api env a) s).
Proof.
  intros Hrest Hen.
  destruct (panel_steps s) as (Hup & Hpre & Hed).
  destruct a; cbn [perform enabled] in *.
  - apply andb_prop in Hen as [Hpanel _]. apply Hup in Hpanel.
    destruct files as [|f rest]; [exact Hrest|].
    now apply upload_keeps_at_rest.
  - destruct Hrest as (Hp & _).
    rewrite reset_run. unfold at_rest. cbn.
    rest_leaf; try discriminate; try constructor.
  - destruct Hrest as (Hp & Hfresh & Hdoc & Herr & Hlang & Hhist).
    unfold at_rest. unfold_handlers. cbn. rest_leaf.
  - destruct Hrest as (Hp & Hfresh & Hdoc & Herr & Hlang & Hhist).
    unfold at_rest, setPreviewMode. unfold_handlers. cbn. rest_leaf.
  - destruct (Hpre Hen) as [Hstep Hd].
    destruct Hrest as (Hp & Hfresh & Hdoc & Herr & Hlang & Hhist).
    unfold at_rest. unfold_handlers. cbn. rest_leaf; try discriminate.
  - apply Hed in Hen.
    destruct Hrest as (Hp & Hfresh & Hdoc & Herr & Hlang & Hhist).
    assert (Hd : document s <> None) by (apply Hdoc; congruence).
    unfold at_rest. unfold_handlers. cbn. rest_leaf; try discriminate.
  - apply andb_prop in Hen as [Hpanel _]. apply Hed in Hpanel.
    destruct Hrest as (Hp & Hfresh & Hdoc & Herr & Hlang & Hhist).
    unfold at_rest. unfold_handlers. cbn. rest_leaf.
  - apply andb_prop in Hen as [Hpanel Hok]. apply Hed in Hpanel.
    apply edit_keeps_at_rest; try assumption.
    rewrite trim_truthy_blank in Hok.
    destruct (blank (editInstructions s)); [|reflexivity].
    destruct (isProcessing s); discriminate.
  - now apply export_keeps_at_rest.
Qed.

Lemma reachable_at_rest (api : ApiService) (s : State) :
  reachable api s -> at_rest s.
Proof.
  induction 1 as [|s env a Hreach IH Hen].
  - apply initial_at_rest.
  - now apply perform_keeps_at_rest.
Qed.

(** X11. Between two actions of a session the processing flag is never
    set: whatever the outside world answered, no upload, edit or export
    leaves the page stuck in its processing state. *)
Theorem session_never_stuck_processing (api : ApiService) (s : State) :
  reachable api s -> isProcessing s = false.
Proof.
  intro H. apply reachable_at_rest in H. apply H.
Qed.

(** X12. In every state of a session a document is present unless the step
    is Upload, so exactly one of the three panels (upload, preview, edit) is
    rendered; the preview panel, which needs the document, is never left
    out at step Preview. *)
Theorem session_renders_one_panel (api : ApiService) (s : State) :
  reachable api s ->
  (currentStep s <> StepUpload -> document s <> None) /\
  (if upload_panel s then 1 else 0) + (if preview_panel s then 1 else 0) +
    (if edit_panel s then 1 else 0) = 1 /\
  (currentStep s = StepPreview -> preview_panel s = true).
Proof.
  intro H. apply reachable_at_rest in H.
  destruct H as (_ & _ & Hdoc & _).
  split; [exact Hdoc|].
  unfold upload_panel, preview_panel, edit_panel.
  destruct (currentStep s) eqn:Hstep; destruct (document s) eqn:Hd;
    repeat split; try reflexivity; try discriminate;
    exfalso; apply Hdoc; congruence.
Qed.

(** X14. In a session every error that is set is a non-empty text, so the
    error banner, which is rendered only for a truthy error, is on the page
    exactly when an error is set. *)
Theorem session_errors_are_shown (api : ApiService) (s : State) :
  reachable api s ->
  (forall msg, error s = Some msg -> msg <> "") /\
  (error_alert s = true <-> error s <> None).
Proof.
  intro H. apply reachable_at_rest in H.
  destruct H as (_ & _ & _ & Herr & _).
  split; [exact Herr|].
  unfold error_alert. destruct (error s) as [msg|] eqn:He.
  - specialize (Herr msg eq_refl). apply truthy_true_iff in Herr.
    rewrite Herr. split; [discriminate | reflexivity].
  - split; [discriminate | congruence].
Qed.

(** X15. In a session every record of the edit history has an instruction
    that is not blank and an explanation that is not empty, and the
    language of the workflow is never the empty string. *)
Theorem session_history_is_well_formed (api : ApiService) (s : State) :
  reachable api s ->
  Forall (fun r => blank (instruction r) = false /\ explanation r <> "")
    (editHistory s) /\
  language s <> "".
Proof.
  intro H. apply reachable_at_rest in H.
  destruct H as (_ & _ & _ & _ & Hlang & Hhist). now split.
Qed.

(* ================================================================== *)
(** ** What the actions never do *)

(** X16. No action of the page ever throws: whatever the state, and
    whatever the backend, the clock and the DOM answer, every handler
    returns normally, every failure having been turned into an error
    message. *)
Theorem no_action_throws (api : ApiService) (env : Env) (a : Action) (s : State) :
  fst (run (perform api env a) s) = Returned tt.
Proof.
  destruct a; cbn [perform]; try reflexivity.
  - destruct files as [|f rest]; [reflexivity|].
    unfold handleFileSelect. unfold_handlers. cbn. walk; reflexivity.
  - unfold usable_markup. unfold_handlers. cbn. walk; reflexivity.
  - unfold_handlers. cbn. walk; reflexivity.
Qed.

Lemma upload_keeps_history (api : ApiService) (env : Env) (file : option File)
    (s : State) :
  editHistory (final_state (handleFileUpload api env file) s) = editHistory s.
Proof.
  destruct file as [f|]; [|reflexivity].
  unfold_handlers. cbn. walk; reflexivity.
Qed.

Lemma edit_appends_at_most_one (api : ApiService) (env : Env) (s : State) :
  exists added,
    editHistory (final_state (handleAIEdit api env) s) = (editHistory s ++ added)%list /\
    length added <= 1.
Proof.
  unfold usable_markup. unfold_handlers. cbn.
  walk;
    first [ exists []; split; [symmetry; apply app_nil_r | cbn; lia]
          | eexists [_]; split; [reflexivity | cbn; lia] ].
Qed.

(** X17. The edit history is append-only: every action but 'New Document'
    leaves the records that were there, in their order, and adds at most
    one record at the end; only 'Apply Changes' ever adds one. *)
Theorem history_is_append_only
    (api : ApiService) (env : Env) (a : Action) (s : State) :
  a <> NewDocument ->
  exists added,
    editHistory (final_state (perform api env a) s) = (editHistory s ++ added)%list /\
    length added <= 1 /\
    (added <> [] -> a = ApplyChanges).
Proof.
  intro Ha.
  assert (Hkeep : forall h : M unit,
            editHistory (final_state h s) = editHistory s ->
            a <> ApplyChanges ->
            exists added,
              editHistory (final_state h s) = (editHistory s ++ added)%list /\
              length added <= 1 /\
              (added <> [] -> a = ApplyChanges)).
  { intros h Hh Hne. exists []. rewrite app_nil_r.
    split; [exact Hh|]. split; [cbn; lia | congruence]. }
  destruct a; cbn [perform]; try (apply Hkeep; [|discriminate]).
  - destruct files as [|f rest]; [reflexivity|]. apply upload_keeps_history.
  - contradiction.
  - reflexivity.
  - reflexivity.
  - reflexivity.
  - reflexivity.
  - reflexivity.
  - destruct (edit_appends_at_most_one api env s) as (added & H1 & H2).
    exists added. repeat split; assumption.
  - apply export_frame.
Qed.

(* ================================================================== *)
(** ** One edit after another *)

(** The state after an edit that the backend carried out. *)
Lemma edit_success_run
    (api : ApiService) (env : Env) (s : State)
    (resp : Response) (r : JsonBody) (m : string) :
  blank (editInstructions s) = false ->
  htmlContent s <> "" ->
  fetch env (edit_request api s) = Resolved resp ->
  ok resp = true ->
  resp_json resp = inr (Some r) ->
  r_success r = true ->
  r_modifiedHTML r = Some m ->
  m <> "" ->
  final_state (handleAIEdit api env) s =
    {| currentStep := currentStep s; document := document s;
       htmlContent := m; isProcessing := false;
       editInstructions := "";
       editHistory := editHistory s ++
         [ {| instruction := editInstructions s;
              timestamp := toLocaleString env;
              explanation := JsString.opt_or (r_explanation r)
                               "Changes applied successfully" |} ];
       previewMode := previewMode s; error := None; language := language s |}.
Proof.
  intros Hb Hh Hfetch Hok Hjson Hsucc Hm Hne.
  apply truthy_true_iff in Hne.
  valid_edit Hb Hh. rewrite Hfetch. cbn. rewrite Hok. cbn. rewrite Hjson. cbn.
  unfold usable_markup. rewrite Hsucc, Hm, Hne. reflexivity.
Qed.

(** X18. Edits accumulate.  After an edit that succeeded with markup [m1],
    the request of the next edit carries [m1] as the content to edit (not
    the markup of the upload), with the same document id and language; when
    that edit succeeds too, the working content is its markup and the
    history ends with the two instructions in the order they were given. *)
Theorem successive_edits_accumulate
    (api : ApiService) (env1 env2 : Env) (s s1 s2 : State)
    (resp1 resp2 : Response) (r1 r2 : JsonBody) (m1 m2 i2 : string) :
  blank (editInstructions s) = false ->
  htmlContent s <> "" ->
  fetch env1 (edit_request api s) = Resolved resp1 ->
  ok resp1 = true ->
  resp_json resp1 = inr (Some r1) ->
  r_success r1 = true ->
  r_modifiedHTML r1 = Some m1 ->
  m1 <> "" ->
  blank i2 = false ->
  s1 = final_state (perform api env1 (TypeInstructions i2))
         (final_state (perform api env1 ApplyChanges) s) ->
  s2 = final_state (perform api env2 ApplyChanges) s1 ->
  body (edit_request api s1) =
    EditJson (match document s with
              | Some d => doc_id d
              | None => None
              end) i2 m1 (language s) /\
  (fetch env2 (edit_request api s1) = Resolved resp2 ->
   ok resp2 = true ->
   resp_json resp2 = inr (Some r2) ->
   r_success r2 = true ->
   r_modifiedHTML r2 = Some m2 ->
   m2 <> "" ->
   htmlContent s2 = m2 /\
   map instruction (editHistory s2) =
     (map instruction (editHistory s) ++ [editInstructions s; i2])%list /\
   length (editHistory s2) = 2 + length (editHistory s)).
Proof.
  intros Hb Hh Hfetch1 Hok1 Hjson1 Hsucc1 Hm1 Hne1 Hb2 Hs1 Hs2.
  cbn [perform] in Hs1, Hs2.
  rewrite (edit_success_run api env1 s resp1 r1 m1) in Hs1 by assumption.
  unfold final_state, run, setEditInstructions, modify in Hs1. cbn in Hs1.
  split; [rewrite Hs1; reflexivity|].
  intros Hfetch2 Hok2 Hjson2 Hsucc2 Hm2 Hne2.
  assert (Hb2' : blank (editInstructions s1) = false) by now rewrite Hs1.
  assert (Hh2 : htmlContent s1 <> "") by now rewrite Hs1.
  rewrite (edit_success_run api env2 s1 resp2 r2 m2) in Hs2 by assumption.
  rewrite Hs2, Hs1. cbn.
  repeat split.
  - rewrite !map_app. cbn. now rewrite <- app_assoc.
  - rewrite !length_app. cbn. lia.
Qed.

(* ================================================================== *)
(** ** The further theorems at the scenarios *)

(** A gateway in front of the backend answers 502 with an HTML page. *)
Lemma failure_status_is_reported_witness :
  error (final_state
           (handleFileUpload api
              (world (Resolved (Session.html_error_page 502 "Bad Gateway")))
              (Some file)) initialState) = Some "HTTP 502: Bad Gateway".
Proof.
  destruct (failure_status_is_reported api
              (world (Resolved (Session.html_error_page 502 "Bad Gateway")))
              file FmtPdf initialState) as (Hupload & _ & _).
  destruct (Hupload (Session.html_error_page 502 "Bad Gateway") eq_refl eq_refl)
    as (msg & Hmsg & _ & _ & Hline).
  rewrite Hmsg. f_equal. apply Hline. right. eexists. reflexivity.
Defined.

(** The connection breaks while the body of a 200 answer is read. *)
Lemma unreadable_body_witness :
  error (final_state
           (handleFileUpload api (world (Resolved Session.broken_body)) (Some file))
           initialState) =
    Some "Unable to connect to server. Please check if the backend is running." /\
  error (final_state (handleAIEdit api (world (Resolved Session.broken_body)))
           editing) = Some "Failed to fetch".
Proof.
  destruct (unreadable_body_is_reported_differently api
              (world (Resolved Session.broken_body)) file FmtPdf initialState
              Session.broken_body failed_to_fetch eq_refl eq_refl eq_refl)
    as (Hupload & _ & _).
  destruct (unreadable_body_is_reported_differently api
              (world (Resolved Session.broken_body)) file FmtPdf editing
              Session.broken_body failed_to_fetch eq_refl eq_refl eq_refl)
    as (_ & Hedit & _).
  split.
  - apply Hupload; reflexivity.
  - apply Hedit; [reflexivity | discriminate | reflexivity | reflexivity].
Defined.

(** A 200 answer to an upload that only carries an error text. *)
Lemma upload_invalid_response_witness :
  error (final_state
           (handleFileUpload api
              (world (Resolved (json_response 200 "OK" (error_body "Quota exceeded"))))
              (Some file)) initialState) = Some "Invalid response from server".
Proof.
  apply (upload_invalid_response api
           (world (Resolved (json_response 200 "OK" (error_body "Quota exceeded"))))
           file initialState
           (json_response 200 "OK" (error_body "Quota exceeded"))
           (Some (error_body "Quota exceeded")));
    try reflexivity.
  left. reflexivity.
Defined.

(** A 200 answer to an edit that only carries an error text. *)
Lemma edit_unsuccessful_response_witness :
  error (final_state
           (handleAIEdit api
              (world (Resolved (json_response 200 "OK"
                                  (error_body "Cannot parse instruction")))))
           editing) = Some "Cannot parse instruction" /\
  editInstructions
    (final_state
       (handleAIEdit api
          (world (Resolved (json_response 200 "OK"
                              (error_body "Cannot parse instruction")))))
       editing) = "make title bold".
Proof.
  destruct (edit_unsuccessful_response api
              (world (Resolved (json_response 200 "OK"
                                  (error_body "Cannot parse instruction"))))
              editing
              (json_response 200 "OK" (error_body "Cannot parse instruction"))
              (Some (error_body "Cannot parse instruction")))
    as (Hmsg & _ & Hinput & _);
    try reflexivity; try discriminate.
  - left. reflexivity.
  - split; [|exact Hinput].
    apply (Hmsg (error_body "Cannot parse instruction")
             "Cannot parse instruction"); [reflexivity | reflexivity | discriminate].
Defined.

(** The server is down while the user edits and exports. *)
Lemma unreachable_server_witness :
  error (final_state (handleAIEdit api (world (Rejected failed_to_fetch))) editing) =
    Some "Unable to connect to server for editing. Please check if the backend is running." /\
  error (final_state (downloadAsFormat api (world (Rejected failed_to_fetch)) FmtPdf)
           editing) =
    Some "Unable to connect to server for conversion. Please check if the backend is running.".
Proof.
  destruct (unreachable_server_is_reported api (world (Rejected failed_to_fetch))
              FmtPdf editing failed_to_fetch eq_refl eq_refl) as (Hedit & Hexport).
  split.
  - destruct Hedit as (msg & Hmsg & Htext & _);
      [reflexivity | discriminate | reflexivity |].
    now rewrite Hmsg, Htext.
  - destruct Hexport as (msg & Hmsg & Htext & _); [discriminate | reflexivity |].
    now rewrite Hmsg, Htext.
Defined.

(** The document [a.txt] is exported as PDF: the file saved is [a.pdf]. *)
Lemma export_success_witness :
  trace (events (downloadAsFormat api (world (Resolved (binary_response 10))) FmtPdf)
           editing) =
    [ EvFetch {| url := "http://localhost:5004/api/conversion/convert";
                 body := ConvertJson "<h1>Hi</h1>" "pdf" (Some "a.pdf") |};
      EvSettled (Resolved (binary_response 10));
      EvCreateObjectURL "blob:1";
      EvAppendLink "blob:1" "a.pdf";
      EvClick "blob:1" "a.pdf";
      EvRemoveLink;
      EvSetTimeout (RevokeObjectURL "blob:1") 100 ].
Proof.
  destruct (export_success_saves_file api (world (Resolved (binary_response 10)))
              FmtPdf editing (binary_response 10) {| blob_size := 10 |} "blob:1")
    as (_ & Htrace & _);
    [ discriminate | reflexivity | reflexivity | reflexivity | discriminate
    | reflexivity | intro; reflexivity | ].
  exact Htrace.
Defined.

(** The object URL cannot be created. *)
Lemma export_save_failure_witness :
  error (final_state (downloadAsFormat api Session.world_no_object_url FmtPdf) editing) =
    Some "Failed to download file".
Proof.
  apply (export_save_failure_is_wrapped api Session.world_no_object_url FmtPdf
           editing (binary_response 10) {| blob_size := 10 |});
    try reflexivity; try discriminate.
  left. eexists. reflexivity.
Defined.

(** The click happened, so the payload was there. *)
Lemma save_only_after_payload_witness :
  exists resp b,
    fetch (world (Resolved (binary_response 10))) (convert_request api editing FmtPdf) =
      Resolved resp /\
    ok resp = true /\ resp_blob resp = inr b /\ 0 < blob_size b.
Proof.
  apply (save_only_after_payload api (world (Resolved (binary_response 10)))
           FmtPdf editing).
  reflexivity.
Defined.

(** The session that uploads [d1] and opens it for editing. *)
Lemma session_never_stuck_witness : isProcessing Session.opened = false.
Proof.
  apply (session_never_stuck_processing api Session.opened).
  apply reach_action; [apply reach_action; [apply reach_initial|]|]; reflexivity.
Defined.

Lemma session_renders_one_panel_witness :
  document Session.opened <> None /\ edit_panel Session.opened = true.
Proof.
  destruct (session_renders_one_panel api Session.opened) as (Hdoc & _).
  - apply reach_action; [apply reach_action; [apply reach_initial|]|]; reflexivity.
  - split; [apply Hdoc; discriminate | reflexivity].
Defined.

(** An export in that session while the server is down. *)
Lemma session_errors_are_shown_witness :
  error_alert
    (final_state (perform api (world (Rejected failed_to_fetch)) (Download FmtPdf))
       Session.opened) = true.
Proof.
  destruct (session_errors_are_shown api
              (final_state (perform api (world (Rejected failed_to_fetch))
                              (Download FmtPdf)) Session.opened)) as (_ & Hshown).
  - apply reach_action;
      [apply reach_action; [apply reach_action; [apply reach_initial|]|]|];
      reflexivity.
  - apply Hshown. discriminate.
Defined.

Lemma session_history_witness : language Session.opened <> "".
Proof.
  destruct (session_history_is_well_formed api Session.opened) as (_ & Hlang).
  - apply reach_action; [apply reach_action; [apply reach_initial|]|]; reflexivity.
  - exact Hlang.
Defined.

(** An export does not touch the history. *)
Lemma history_is_append_only_witness :
  exists added,
    editHistory
      (final_state (perform api (world (Rejected failed_to_fetch)) (Download FmtPdf))
         edited) = editHistory edited ++ added /\
    length added <= 1.
Proof.
  destruct (history_is_append_only api (world (Rejected failed_to_fetch))
              (Download FmtPdf) edited) as (added & Hhist & Hlen & _);
    [discriminate|].
  exists added. split; [exact Hhist | exact Hlen].
Defined.

(** "make title bold", then "make it red". *)
Lemma successive_edits_witness :
  body (edit_request api
          (final_state
             (perform api
                (world (Resolved (json_response 200 "OK" (edit_body (Some "Bolded title")))))
                (TypeInstructions "make it red"))
             (final_state
                (perform api
                   (world (Resolved (json_response 200 "OK"
                                       (edit_body (Some "Bolded title")))))
                   ApplyChanges) editing))) =
    EditJson (Some "d1") "make it red" "<h1><b>Hi</b></h1>" "en".
Proof.
  pose (env := world (Resolved (json_response 200 "OK"
                                  (edit_body (Some "Bolded title"))))).
  pose (s1 := final_state (perform api env (TypeInstructions "make it red"))
                (final_state (perform api env ApplyChanges) editing)).
  destruct (successive_edits_accumulate api env env editing s1
              (final_state (perform api env ApplyChanges) s1)
              (json_response 200 "OK" (edit_body (Some "Bolded title")))
              (json_response 200 "OK" (edit_body (Some "Bolded title")))
              (edit_body (Some "Bolded title")) (edit_body (Some "Bolded title"))
              "<h1><b>Hi</b></h1>" "<h1><b>Hi</b></h1>" "make it red")
    as [Hrequest _];
    [ reflexivity | discriminate | reflexivity | reflexivity | reflexivity
    | reflexivity | reflexivity | discriminate | reflexivity | reflexivity
    | reflexivity | ].
  exact Hrequest.
Defined.

(** A name that starts with a dot has nothing before its first dot. *)
Example export_filename_dotfile :
  export_filename (Some Session.dotfile) FmtPdf = "document.pdf".
Proof. reflexivity. Qed.

(** Of seven records the box lists the last five, oldest first. *)
Example visible_history_of_seven :
  map instruction (visible_history Session.long_history) = ["3"; "4"; "5"; "6"; "7"] /\
  truncation_note Session.long_history = true.
Proof. split; reflexivity. Qed.

(** The original name [a.txt] splits into the stem [a] and the rest
    [.txt]. *)
Lemma export_filename_witness :
  exists stem rest,
    "a.txt" = (stem ++ rest)%string /\
    count_dots stem = 0 /\
    (rest = "" \/ exists r, rest = String "."%char r) /\
    (stem <> "" -> export_filename (Some doc) FmtPdf = (stem ++ ".pdf")%string) /\
    (stem = "" -> export_filename (Some doc) FmtPdf = "document.pdf").
Proof.
  destruct (export_filename_has_one_dot (Some doc) FmtPdf) as (_ & Hname & _).
  exact (Hname doc "a.txt" eq_refl eq_refl).
Defined.

(* ================================================================== *)
(** ** 'New Document' while an edit is pending *)

(** When nothing happens on the page while the request is pending, the
    handler on a live page is [handleAIEdit]. *)
Lemma handleAIEdit_pending_idle (api : ApiService) (env : Env) (s : State) :
  run (handleAIEdit_pending api env (fun x => x)) s = run (handleAIEdit api env) s.
Proof.
  unfold handleAIEdit_pending, editDocument_pending, await_fetch_meanwhile.
  unfold_handlers. unfold usable_markup. cbn.
  walk; reflexivity.
Qed.

(** A successful edit on a live page: what the handler does after the
    [await] is applied to the state as the page left it meanwhile. *)
Lemma edit_pending_success_run
    (api : ApiService) (env : Env) (s : State) (meanwhile : State -> State)
    (resp : Response) (r : JsonBody) (m : string) :
  blank (editInstructions s) = false ->
  htmlContent s <> "" ->
  fetch env (edit_request api s) = Resolved resp ->
  ok resp = true ->
  resp_json resp = inr (Some r) ->
  r_success r = true ->
  r_modifiedHTML r = Some m ->
  m <> "" ->
  snd (run (handleAIEdit_pending api env meanwhile) s) =
    {| st := {| currentStep := currentStep (meanwhile (pending_state s));
                document := document (meanwhile (pending_state s));
                htmlContent := m;
                isProcessing := false;
                editInstructions := "";
                editHistory :=
                  editHistory (meanwhile (pending_state s)) ++
                  [ {| instruction := editInstructions s;
                       timestamp := toLocaleString env;
                       explanation := JsString.opt_or (r_explanation r)
                                        "Changes applied successfully" |} ];
                previewMode := previewMode (meanwhile (pending_state s));
                error := error (meanwhile (pending_state s));
                language := language (meanwhile (pending_state s)) |};
       log := [ (EvFetch (edit_request api s), pending_state s);
                (EvSettled (Resolved resp), meanwhile (pending_state s)) ] |}.
Proof.
  intros Hb Hh Hfetch Hok Hjson Hsucc Hm Hne.
  assert (Hi : editInstructions s <> "").
  { intros E. rewrite E in Hb. discriminate. }
  apply truthy_true_iff in Hh, Hi, Hne.
  unfold handleAIEdit_pending, editDocument_pending, await_fetch_meanwhile,
    pending_state.
  unfold_handlers. unfold usable_markup. cbn [st].
  rewrite !trim_truthy_blank, !Hb, !Hh, !Hi. cbn.
  rewrite Hfetch. cbn. rewrite Hok. cbn. rewrite Hjson. cbn.
  rewrite Hsucc, Hm, Hne. reflexivity.
Qed.

(** X13. The 'New Document' button is on the page and enabled while an edit
    is pending.  When it is pressed then and the edit succeeds afterwards,
    what the handler does after the [await] is written into the reset state:
    the page is at step Upload without a document, yet the working content
    is the markup of the edit and the history holds the record of the edit;
    an upload that follows does not remove that record. *)
Theorem reset_during_pending_edit_leaves_residue
    (api : ApiService) (env : Env) (s : State)
    (resp : Response) (r : JsonBody) (m : string) :
  currentStep s = StepEdit ->
  blank (editInstructions s) = false ->
  htmlContent s <> "" ->
  fetch env (edit_request api s) = Resolved resp ->
  ok resp = true ->
  resp_json resp = inr (Some r) ->
  r_success r = true ->
  r_modifiedHTML r = Some m ->
  m <> "" ->
  enabled (pending_state s) NewDocument = true /\
  events (handleAIEdit_pending api env (final_state resetDocument)) s =
    [ (EvFetch (edit_request api s), pending_state s);
      (EvSettled (Resolved resp), final_state resetDocument (pending_state s)) ] /\
  exists rec,
    instruction rec = editInstructions s /\
    final_state (handleAIEdit_pending api env (final_state resetDocument)) s =
      {| currentStep := StepUpload; document := None;
         htmlContent := m; isProcessing := false;
         editInstructions := ""; editHistory := [rec];
         previewMode := previewMode s; error := None; language := "en" |} /\
    forall (env2 : Env) (file2 : option File),
      editHistory
        (final_state (handleFileUpload api env2 file2)
           (final_state (handleAIEdit_pending api env (final_state resetDocument)) s)) =
        [rec].
Proof.
  intros Hstep Hb Hh Hfetch Hok Hjson Hsucc Hm Hne.
  split.
  { unfold enabled, upload_panel, pending_state. cbn. now rewrite Hstep. }
  pose proof (edit_pending_success_run api env s (final_state resetDocument)
                resp r m Hb Hh Hfetch Hok Hjson Hsucc Hm Hne) as Hrun.
  rewrite !(reset_run (pending_state s)) in Hrun.
  assert (Hfinal :
            final_state (handleAIEdit_pending api env (final_state resetDocument)) s =
              {| currentStep := StepUpload; document := None;
                 htmlContent := m; isProcessing := false;
                 editInstructions := "";
                 editHistory :=
                   [ {| instruction := editInstructions s;
                        timestamp := toLocaleString env;
                        explanation := JsString.opt_or (r_explanation r)
                                         "Changes applied successfully" |} ];
                 previewMode := previewMode s; error := None;
                 language := "en" |}).
  { unfold final_state at 1. rewrite Hrun. reflexivity. }
  split.
  { unfold events. rewrite Hrun, (reset_run (pending_state s)). reflexivity. }
  eexists. split; [|split; [exact Hfinal|]]; [reflexivity|].
  intros env2 file2. rewrite upload_keeps_history, Hfinal. reflexivity.
Qed.

(** 'New Document' is pressed while "make title bold" is on its way. *)
Lemma reset_during_pending_edit_witness :
  enabled (pending_state editing) NewDocument = true /\
  exists rec,
    instruction rec = "make title bold" /\
    final_state
      (handleAIEdit_pending api
         (world (Resolved (json_response 200 "OK" (edit_body (Some "Bolded title")))))
         (final_state resetDocument)) editing =
      {| currentStep := StepUpload; document := None;
         htmlContent := "<h1><b>Hi</b></h1>"; isProcessing := false;
         editInstructions := ""; editHistory := [rec];
         previewMode := Desktop; error := None; language := "en" |}.
Proof.
  destruct (reset_during_pending_edit_leaves_residue api
              (world (Resolved (json_response 200 "OK" (edit_body (Some "Bolded title")))))
              editing
              (json_response 200 "OK" (edit_body (Some "Bolded title")))
              (edit_body (Some "Bolded title")) "<h1><b>Hi</b></h1>")
    as (Hen & _ & rec & Hins & Hfinal & _);
    [ reflexivity | reflexivity | discriminate | reflexivity | reflexivity
    | reflexivity | reflexivity | reflexivity | discriminate | ].
  split; [exact Hen|].
  exists rec. split; [exact Hins | exact Hfinal].
Defined.
